(** * Study-Sync: the recurring-reminder scheduling engine of [main.py]

    A shallow embedding of the FastAPI backend ([src/main.py]): the
    in-memory stores [classes_db] and [messages_db], the APScheduler job
    store the handlers drive, the trigger computation of
    [schedule_reminder], and the handlers [create_class], [update_class],
    [delete_class], [send_manual_reminder] together with the background
    callback [send_class_reminder].

    Conventions of the embedding.
    - Python [str] is a Rocq [string] (a sequence of bytes); the emoji of
      the message template are their UTF-8 bytes.
    - Python [int] is [Z].
    - Every handler is a function [Env -> ... -> State -> outcome _ * State]:
      the state is threaded explicitly, and an exception that leaves the
      handler is the [Raised] outcome, paired with the state as mutated
      up to the [raise].
    - [Env] carries what a call reads from the outside world:
      [datetime.now()] and [uuid.uuid4()]. *)

From Stdlib Require Import ZArith Lia Ascii.
From stdpp Require Import gmap strings list pretty.

Local Open Scope Z_scope.

(** ** Python string primitives used by [schedule_reminder] *)

Module PyStr.

(** [str.split(sep)] for a one-character separator: every occurrence of
    [sep] cuts, so the result is never empty (for the empty string it is
    the list holding the empty string). *)
Fixpoint split (sep : ascii) (s : string) : list string :=
  match s with
  | EmptyString => [EmptyString]
  | String c s' =>
      if decide (c = sep) then EmptyString :: split sep s'
      else match split sep s' with
           | p :: ps => String c p :: ps
           | [] => [String c EmptyString]
           end
  end.

(** The ASCII characters [int()] strips from both ends of its argument:
    TAB, LF, VT, FF, CR and the space. *)
Definition is_space (c : ascii) : bool :=
  let n := nat_of_ascii c in
  (((9 <=? n) && (n <=? 13)) || (n =? 32))%nat.

Fixpoint lstrip (s : string) : string :=
  match s with
  | EmptyString => EmptyString
  | String c s' => if is_space c then lstrip s' else s
  end.

Definition strip (s : string) : string :=
  String.rev (lstrip (String.rev (lstrip s))).

Definition digit_value (c : ascii) : option Z :=
  Z.of_nat <$> Ascii.is_nat c.

(** Decimal digits in which single underscores may separate digits
    ([1_000]); [prev] records that the previous character was a digit,
    so that a leading, trailing or doubled underscore is refused. *)
Fixpoint digits (acc : Z) (prev : bool) (s : string) : option Z :=
  match s with
  | EmptyString => if prev then Some acc else None
  | String c s' =>
      match digit_value c with
      | Some d => digits (10 * acc + d) true s'
      | None =>
          if decide (c = "_"%char)
          then (if prev then digits acc false s' else None)
          else None
      end
  end.

(** [int(s)] in base ten: [None] is [ValueError].  This is [int] on the
    strings that are [plain] (below): outside them Python also reads the
    decimal digits and strips the white space of other scripts, and its
    newer versions refuse a literal of more than 4300 digits. *)
Definition int (s : string) : option Z :=
  match strip s with
  | String "+" r => digits 0 false r
  | String "-" r => Z.opp <$> digits 0 false r
  | r => digits 0 false r
  end.

Fixpoint is_ascii (s : string) : bool :=
  match s with
  | EmptyString => true
  | String c s' => (nat_of_ascii c <? 128)%nat && is_ascii s'
  end.

(** The strings on which [int] above is Python's [int] in every version:
    ASCII characters only, and at most 4300 of them. *)
Definition plain (s : string) : Prop :=
  is_ascii s = true /\ (String.length s <= 4300)%nat.

Global Instance plain_dec s : Decision (plain s).
Proof. unfold plain. apply _. Defined.

End PyStr.

(** ** The fragment of [datetime] used by the backend *)

Module Datetime.

(** A naive [datetime].  The date is kept as its proleptic Gregorian
    ordinal ([date.toordinal()]: 0001-01-01 is day 1), which is all the
    code depends on. *)
Record datetime : Type := mk_datetime {
  ordinal : Z;
  hour : Z;
  minute : Z;
  second : Z;
  microsecond : Z
}.

Global Instance datetime_eq_dec : EqDecision datetime.
Proof. solve_decision. Defined.

(** [date.max.toordinal()], the ordinal of 9999-12-31. *)
Definition max_ordinal : Z := 3652059.

(** [timedelta.max.days]. *)
Definition max_delta_days : Z := 999999999.

(** [d.weekday()]: Monday is 0, Sunday is 6. *)
Definition weekday (d : datetime) : Z := (ordinal d + 6) mod 7.

(** [d.replace(hour=h, minute=m, second=0, microsecond=0)];
    [None] is the exception [replace] raises for a field out of range. *)
Definition replace_time (d : datetime) (h m : Z) : option datetime :=
  if bool_decide (0 <= h <= 23 /\ 0 <= m <= 59)
  then Some {| ordinal := ordinal d; hour := h; minute := m;
               second := 0; microsecond := 0 |}
  else None.

(** [timedelta(minutes=n)], kept as its number of minutes; [None] is the
    [OverflowError] raised when the normalised day count leaves
    [-999999999 .. 999999999]. *)
Definition timedelta_minutes (n : Z) : option Z :=
  if bool_decide (- max_delta_days <= n / 1440 <= max_delta_days)
  then Some n else None.

(** [d - timedelta(minutes=n)]; [None] is the [OverflowError] raised
    when the resulting date leaves [0001-01-01 .. 9999-12-31]. *)
Definition sub_minutes (d : datetime) (n : Z) : option datetime :=
  let total := ordinal d * 1440 + hour d * 60 + minute d - n in
  let day := total / 1440 in
  let rest := total mod 1440 in
  if bool_decide (1 <= day <= max_ordinal)
  then Some {| ordinal := day; hour := rest / 60; minute := rest mod 60;
               second := second d; microsecond := microsecond d |}
  else None.

End Datetime.

Export Datetime.

(** ** Data model *)

(** The pydantic model [TutoringClass]; [classes_db] stores its [.dict()],
    which has the same fields. *)
Record TutoringClass : Type := mk_class {
  id : option string;
  parent_phone : string;
  child_name : string;
  subject : string;
  day_of_week : string;
  class_time : string;
  reminder_minutes : Z;
  is_active : bool;
  created_at : option datetime
}.

Global Instance TutoringClass_eq_dec : EqDecision TutoringClass.
Proof. solve_decision. Defined.

(** The pydantic model [ReminderRequest]. *)
Record ReminderRequest : Type := mk_request {
  class_id : string;
  custom_message : option string
}.

(** An entry of [messages_db]. *)
Record Message : Type := mk_message {
  msg_id : string;
  msg_phone : string;
  msg_message : string;
  msg_timestamp : datetime;
  msg_status : string
}.

Global Instance Message_eq_dec : EqDecision Message.
Proof. solve_decision. Defined.

(** What [logger.info] and [logger.error] have written. *)
Inductive LogLevel : Type := INFO | ERROR.

Global Instance LogLevel_eq_dec : EqDecision LogLevel.
Proof. solve_decision. Defined.

(** What one call reads from outside the program. The clock reads of one
    call are taken at one instant. *)
Record Env : Type := mk_env {
  now : datetime;
  uuid4 : string
}.

(** ** The APScheduler job store

    APScheduler is a library the backend calls; it is modelled by the
    contract of its in-memory job store.  Every job of this program runs
    [send_class_reminder] on one argument, so a job is its id, its cron
    trigger and that argument.  The store is kept as a list, so that "one
    entry per id" is a property to prove and not a consequence of the
    representation; the store's ordering by next run time is not modelled
    (a new job goes last, a replaced job keeps its place). *)

(** [CronTrigger(day_of_week=.., hour=.., minute=..)]: fires every week on
    that weekday (0 is Monday) at that hour and minute. *)
Record CronTrigger : Type := mk_trigger {
  cron_day_of_week : Z;
  cron_hour : Z;
  cron_minute : Z
}.

Global Instance CronTrigger_eq_dec : EqDecision CronTrigger.
Proof. solve_decision. Defined.

Record Job : Type := mk_job {
  job_id : string;
  job_trigger : CronTrigger;
  job_args : string
}.

Global Instance Job_eq_dec : EqDecision Job.
Proof. solve_decision. Defined.

Module Scheduler.

Inductive store_error : Type := ConflictingIdError | JobLookupError.

Definition lookup_job (jid : string) (js : list Job) : option Job :=
  List.find (fun j => bool_decide (job_id j = jid)) js.

(** The entries of the store under one id, and their number. *)
Definition jobs_with_id (jid : string) (js : list Job) : list Job :=
  List.filter (fun j => bool_decide (job_id j = jid)) js.

Definition count_jobs (jid : string) (js : list Job) : nat :=
  length (jobs_with_id jid js).

Fixpoint replace_first (j : Job) (js : list Job) : list Job :=
  match js with
  | [] => []
  | k :: r => if decide (job_id k = job_id j) then j :: r
              else k :: replace_first j r
  end.

Fixpoint remove_first (jid : string) (js : list Job) : list Job :=
  match js with
  | [] => []
  | k :: r => if decide (job_id k = jid) then r
              else k :: remove_first jid r
  end.

(** [jobstore.add_job(job)]: refuses an id already present. *)
Definition store_add_job (j : Job) (js : list Job) : store_error + list Job :=
  match lookup_job (job_id j) js with
  | Some _ => inl ConflictingIdError
  | None => inr (js ++ [j])
  end.

(** [jobstore.update_job(job)]: the id must be present. *)
Definition store_update_job (j : Job) (js : list Job) : store_error + list Job :=
  match lookup_job (job_id j) js with
  | None => inl JobLookupError
  | Some _ => inr (replace_first j js)
  end.

(** [scheduler.add_job(.., id=.., replace_existing=..)] on a running
    scheduler: add, and on a conflicting id update instead when
    [replace_existing] is set. *)
Definition add_job (j : Job) (replace_existing : bool) (js : list Job)
  : store_error + list Job :=
  match store_add_job j js with
  | inr js' => inr js'
  | inl e => if replace_existing then store_update_job j js else inl e
  end.

(** [scheduler.remove_job(job_id)]: raises [JobLookupError] when absent. *)
Definition remove_job (jid : string) (js : list Job) : store_error + list Job :=
  match lookup_job jid js with
  | None => inl JobLookupError
  | Some _ => inr (remove_first jid js)
  end.

(** The clock reading is within the weekday, hour and minute of the
    trigger.  The trigger itself is due once in that minute, at second 0:
    at a reading with [second d = 0] and [microsecond d = 0] this is
    exactly "the trigger is due", at the other readings of the minute it
    holds although the trigger is not due. *)
Definition fires_at (t : CronTrigger) (d : datetime) : Prop :=
  cron_day_of_week t = weekday d /\ cron_hour t = hour d /\ cron_minute t = minute d.

Global Instance fires_at_dec t d : Decision (fires_at t d).
Proof. unfold fires_at. apply _. Defined.

(** The jobs whose trigger matches the clock reading [d]: the jobs the
    scheduler runs at [d] when [d] is a whole minute, and a superset of
    them otherwise. *)
Definition due_jobs (d : datetime) (js : list Job) : list Job :=
  List.filter (fun j => bool_decide (fires_at (job_trigger j) d)) js.

End Scheduler.

(** ** Program state and outcomes *)

Record State : Type := mk_state {
  classes_db : gmap string TutoringClass;
  messages_db : list Message;
  scheduler_jobs : list Job;
  logger : list (LogLevel * string)
}.

(** The module-level initial values: empty stores, a scheduler without jobs. *)
Definition initial_state : State :=
  {| classes_db := ∅; messages_db := []; scheduler_jobs := []; logger := [] |}.

Definition set_classes_db (f : gmap string TutoringClass -> gmap string TutoringClass)
    (s : State) : State :=
  {| classes_db := f (classes_db s); messages_db := messages_db s;
     scheduler_jobs := scheduler_jobs s; logger := logger s |}.

Definition set_scheduler_jobs (js : list Job) (s : State) : State :=
  {| classes_db := classes_db s; messages_db := messages_db s;
     scheduler_jobs := js; logger := logger s |}.

Definition append_message (m : Message) (s : State) : State :=
  {| classes_db := classes_db s; messages_db := messages_db s ++ [m];
     scheduler_jobs := scheduler_jobs s; logger := logger s |}.

Definition log (lvl : LogLevel) (text : string) (s : State) : State :=
  {| classes_db := classes_db s; messages_db := messages_db s;
     scheduler_jobs := scheduler_jobs s; logger := logger s ++ [(lvl, text)] |}.

(** Exceptions that leave a handler.  [DatetimeError] stands for the
    [ValueError] or [OverflowError] raised by [datetime] arithmetic,
    [SchedulerError] for an exception of the job store; neither is caught
    by the handlers, so the web framework answers 500. *)
Inductive exn : Type :=
  | HTTPException (status_code : Z) (detail : string)
  | DatetimeError
  | SchedulerError (e : Scheduler.store_error).

Inductive outcome (A : Type) : Type :=
  | Returned (a : A)
  | Raised (e : exn).
Arguments Returned {A} a.
Arguments Raised {A} e.

(** A JSON object of strings, as the handlers return. *)
Definition Response : Type := list (string * string).

(** Assignment to the two fields the handlers overwrite on the request
    body: [tutoring_class.id = ..] and [tutoring_class.created_at = ..]. *)
Definition set_id (v : option string) (tc : TutoringClass) : TutoringClass :=
  {| id := v; parent_phone := parent_phone tc; child_name := child_name tc;
     subject := subject tc; day_of_week := day_of_week tc;
     class_time := class_time tc; reminder_minutes := reminder_minutes tc;
     is_active := is_active tc; created_at := created_at tc |}.

Definition set_created_at (v : option datetime) (tc : TutoringClass) : TutoringClass :=
  {| id := id tc; parent_phone := parent_phone tc; child_name := child_name tc;
     subject := subject tc; day_of_week := day_of_week tc;
     class_time := class_time tc; reminder_minutes := reminder_minutes tc;
     is_active := is_active tc; created_at := v |}.

(** ** The handlers of [main.py] *)

Definition nl : string := String "010"%char EmptyString.

(** [send_whatsapp_message(phone, message)]: appends to [messages_db] and
    logs; the [WhatsAppMessage] it returns is not used by any caller. *)
Definition send_whatsapp_message (e : Env) (phone message : string) (s : State) : State :=
  log INFO ("WhatsApp message sent to " +:+ phone +:+ ": " +:+ message)
    (append_message
       {| msg_id := uuid4 e; msg_phone := phone; msg_message := message;
          msg_timestamp := now e; msg_status := "sent" |} s).

(** The f-string of [send_class_reminder] after [.strip()]: the template
    starts and ends with a newline, which is all [strip] removes. *)
Definition reminder_message (tc : TutoringClass) : string :=
  "🔔 Class Reminder!" +:+ nl +:+ nl +:+
  "📚 Subject: " +:+ subject tc +:+ nl +:+
  "👶 Student: " +:+ child_name tc +:+ nl +:+
  "⏰ Time: " +:+ class_time tc +:+ nl +:+
  "📅 Today: " +:+ day_of_week tc +:+ nl +:+ nl +:+
  "Don't forget! Class starts in " +:+ pretty (reminder_minutes tc) +:+ " minutes.".

(** [send_class_reminder(class_id)], the callback of every scheduled job. *)
Definition send_class_reminder (e : Env) (cid : string) (s : State)
  : outcome unit * State :=
  match classes_db s !! cid with
  | None => (Returned tt, log ERROR ("Class " +:+ cid +:+ " not found") s)
  | Some tutoring_class =>
      if negb (is_active tutoring_class) then (Returned tt, s)
      else (Returned tt,
            send_whatsapp_message e (parent_phone tutoring_class)
              (reminder_message tutoring_class) s)
  end.

(** [day_mapping] of [schedule_reminder]. *)
Definition day_mapping (day : string) : option Z :=
  if decide (day = "Monday") then Some 0
  else if decide (day = "Tuesday") then Some 1
  else if decide (day = "Wednesday") then Some 2
  else if decide (day = "Thursday") then Some 3
  else if decide (day = "Friday") then Some 4
  else if decide (day = "Saturday") then Some 5
  else if decide (day = "Sunday") then Some 6
  else None.

(** [hour, minute = map(int, class_time.split(":"))]: [None] when the
    statement raises (not exactly two parts, or a part [int] refuses). *)
Definition parse_class_time (t : string) : option (Z * Z) :=
  match PyStr.split ":" t with
  | [a; b] =>
      match PyStr.int a, PyStr.int b with
      | Some h, Some m => Some (h, m)
      | _, _ => None
      end
  | _ => None
  end.

(** The first half of [schedule_reminder], up to the construction of the
    [CronTrigger]: the two guarded early returns, an uncaught [datetime]
    exception, or the trigger. *)
Inductive trigger_result : Type :=
  | InvalidDay
  | InvalidTimeFormat
  | DatetimeRaised
  | Trigger (t : CronTrigger).

Definition compute_trigger (today : datetime) (tc : TutoringClass) : trigger_result :=
  match day_mapping (day_of_week tc) with
  | None => InvalidDay
  | Some dow =>
      match parse_class_time (class_time tc) with
      | None => InvalidTimeFormat
      | Some (h, m) =>
          match replace_time today h m with
          | None => DatetimeRaised
          | Some class_start =>
              match timedelta_minutes (reminder_minutes tc) with
              | None => DatetimeRaised
              | Some lead =>
                  match sub_minutes class_start lead with
                  | None => DatetimeRaised
                  | Some reminder_time =>
                      Trigger {| cron_day_of_week := dow;
                                 cron_hour := hour reminder_time;
                                 cron_minute := minute reminder_time |}
                  end
              end
          end
      end
  end.

(** The id under which the job of a class is stored: [f"reminder_{class_id}"]. *)
Definition reminder_id (cid : string) : string := "reminder_" +:+ cid.

(** The job of class [cid] with trigger [t]: it runs
    [send_class_reminder] with [args=[class_id]]. *)
Definition reminder_job (cid : string) (t : CronTrigger) : Job :=
  {| job_id := reminder_id cid; job_trigger := t; job_args := cid |}.

(** [scheduler.add_job(send_class_reminder, trigger=trigger, args=[class_id],
    id=f"reminder_{class_id}", replace_existing=True)]. *)
Definition install (cid : string) (t : CronTrigger) (js : list Job)
  : Scheduler.store_error + list Job :=
  Scheduler.add_job (reminder_job cid t) true js.

(** [schedule_reminder(class_id, tutoring_class)]. *)
Definition schedule_reminder (e : Env) (cid : string) (tc : TutoringClass) (s : State)
  : outcome unit * State :=
  match compute_trigger (now e) tc with
  | InvalidDay => (Returned tt, log ERROR ("Invalid day: " +:+ day_of_week tc) s)
  | InvalidTimeFormat =>
      (Returned tt, log ERROR ("Invalid time format: " +:+ class_time tc) s)
  | DatetimeRaised => (Raised DatetimeError, s)
  | Trigger t =>
      match install cid t (scheduler_jobs s) with
      | inl err => (Raised (SchedulerError err), s)
      | inr js =>
          (Returned tt,
           log INFO ("Scheduled reminder for class " +:+ cid) (set_scheduler_jobs js s))
      end
  end.

(** [POST /classes/]. *)
Definition create_class (e : Env) (tutoring_class : TutoringClass) (s : State)
  : outcome Response * State :=
  let cid := uuid4 e in
  let tc := set_created_at (Some (now e)) (set_id (Some cid) tutoring_class) in
  let s1 := set_classes_db (insert cid tc) s in
  match schedule_reminder e cid tc s1 with
  | (Raised x, s2) => (Raised x, s2)
  | (Returned _, s2) =>
      (Returned [("message", "Class created successfully"); ("class_id", cid)], s2)
  end.

(** [try: scheduler.remove_job(f"reminder_{class_id}") except: pass]. *)
Definition remove_old_reminder (cid : string) (s : State) : State :=
  match Scheduler.remove_job (reminder_id cid) (scheduler_jobs s) with
  | inl _ => s
  | inr js => set_scheduler_jobs js s
  end.

(** [PUT /classes/{class_id}]. *)
Definition update_class (e : Env) (cid : string) (updated_class : TutoringClass) (s : State)
  : outcome Response * State :=
  match classes_db s !! cid with
  | None => (Raised (HTTPException 404 "Class not found"), s)
  | Some _ =>
      let s1 := remove_old_reminder cid s in
      let tc := set_id (Some cid) updated_class in
      let s2 := set_classes_db (insert cid tc) s1 in
      match schedule_reminder e cid tc s2 with
      | (Raised x, s3) => (Raised x, s3)
      | (Returned _, s3) => (Returned [("message", "Class updated successfully")], s3)
      end
  end.

(** [DELETE /classes/{class_id}]. *)
Definition delete_class (cid : string) (s : State) : outcome Response * State :=
  match classes_db s !! cid with
  | None => (Raised (HTTPException 404 "Class not found"), s)
  | Some _ =>
      let s1 := remove_old_reminder cid s in
      (Returned [("message", "Class deleted successfully")],
       set_classes_db (delete cid) s1)
  end.

(** [POST /reminders/send/{class_id}]; the request body is not read. *)
Definition send_manual_reminder (e : Env) (cid : string) (request : ReminderRequest)
    (s : State) : outcome Response * State :=
  match classes_db s !! cid with
  | None => (Raised (HTTPException 404 "Class not found"), s)
  | Some _ =>
      match send_class_reminder e cid s with
      | (Raised x, s1) => (Raised x, s1)
      | (Returned _, s1) => (Returned [("message", "Reminder sent successfully")], s1)
      end
  end.

(** ** The background firing path and reachable states *)

(** The [class_id]s of the jobs whose trigger matches the clock reading
    [d]: those on which the scheduler calls [send_class_reminder] at [d]
    when [d] is a whole minute, and a superset of them otherwise. *)
Definition dispatcher_invocations (d : datetime) (s : State) : list string :=
  job_args <$> Scheduler.due_jobs d (scheduler_jobs s).

(** States the running service can be in.  The clock stays within the
    ordinals [lo .. hi]; [uuid4] returns an id that is not in use, which is
    the guarantee the program relies on when it stores under that id
    without looking. *)
Inductive reachable (lo hi : Z) : State -> Prop :=
  | reach_init : reachable lo hi initial_state
  | reach_create e tc s :
      reachable lo hi s ->
      lo <= ordinal (now e) <= hi ->
      classes_db s !! uuid4 e = None ->
      reachable lo hi (create_class e tc s).2
  | reach_update e cid tc s :
      reachable lo hi s ->
      lo <= ordinal (now e) <= hi ->
      reachable lo hi (update_class e cid tc s).2
  | reach_delete cid s :
      reachable lo hi s ->
      reachable lo hi (delete_class cid s).2
  | reach_manual e cid req s :
      reachable lo hi s ->
      reachable lo hi (send_manual_reminder e cid req s).2
  | reach_fire e cid s :
      reachable lo hi s ->
      cid ∈ dispatcher_invocations (now e) s ->
      reachable lo hi (send_class_reminder e cid s).2.

(** ** Notions the properties are stated with *)

(** The record [create_class] stores for a request body. *)
Definition created_record (e : Env) (tc : TutoringClass) : TutoringClass :=
  set_created_at (Some (now e)) (set_id (Some (uuid4 e)) tc).

(** The JSON object [create_class] returns. *)
Definition created_response (e : Env) : Response :=
  [("message", "Class created successfully"); ("class_id", uuid4 e)].

(** Weekly-minute space: minutes since Monday 00:00, and back. *)
Definition week_length : Z := 7 * 1440.

Definition week_minute (dow h m : Z) : Z := dow * 1440 + h * 60 + m.

Definition of_week_minute (w : Z) : Z * Z * Z :=
  (w / 1440, (w mod 1440) / 60, w mod 60).

(** Adding the lead time back to a fire spec, modulo the week. *)
Definition add_lead_back (t : CronTrigger) (lead : Z) : Z * Z * Z :=
  of_week_minute
    ((week_minute (cron_day_of_week t) (cron_hour t) (cron_minute t) + lead)
       mod week_length).

(** At most one entry of the job store under every id. *)
Definition one_per_id (js : list Job) : Prop :=
  forall k, (Scheduler.count_jobs k js <= 1)%nat.

(** The schedule fields the specification calls invalid. *)
Definition invalid_schedule_fields (tc : TutoringClass) : Prop :=
  day_mapping (day_of_week tc) = None \/
  match parse_class_time (class_time tc) with
  | None => True
  | Some (h, m) => ~ (0 <= h <= 23 /\ 0 <= m <= 59)
  end \/
  reminder_minutes tc < 0.

(** A create request is rejected: the caller gets an exception and the
    record store is as before. *)
Definition create_rejected (e : Env) (tc : TutoringClass) (s : State) : Prop :=
  (exists x, (create_class e tc s).1 = Raised x) /\
  classes_db (create_class e tc s).2 = classes_db s.

(** Every active record has exactly one job under its id. *)
Definition active_records_scheduled (s : State) : Prop :=
  forall cid tc, classes_db s !! cid = Some tc -> is_active tc = true ->
    Scheduler.count_jobs (reminder_id cid) (scheduler_jobs s) = 1%nat.

(** The record's schedule fields yield a trigger at every clock reading
    whose date is within the ordinals [lo .. hi]. *)
Definition schedulable (lo hi : Z) (tc : TutoringClass) : Prop :=
  forall d, lo <= ordinal d <= hi -> exists t, compute_trigger d tc = Trigger t.

(** What holds of a job of the store: it is keyed by the class it runs
    for, that class is stored, and its trigger is the one the record's
    fields yield. *)
Definition job_matches_record (s : State) (j : Job) : Prop :=
  job_id j = reminder_id (job_args j) /\
  exists tc, classes_db s !! job_args j = Some tc /\
    exists d, compute_trigger d tc = Trigger (job_trigger j).

Record registry_consistent (lo hi : Z) (s : State) : Prop := {
  rc_unique : one_per_id (scheduler_jobs s);
  rc_sound : Forall (job_matches_record s) (scheduler_jobs s);
  rc_complete : forall cid tc,
    classes_db s !! cid = Some tc -> schedulable lo hi tc ->
    (1 <= Scheduler.count_jobs (reminder_id cid) (scheduler_jobs s))%nat
}.

(** ** Sample requests *)

Module Sample.

Definition clock : datetime :=
  {| ordinal := 739000; hour := 9; minute := 30; second := 12; microsecond := 5 |}.

Definition env1 : Env := {| now := clock; uuid4 := "u1" |}.
Definition env2 : Env := {| now := clock; uuid4 := "u2" |}.

Definition request (day time : string) (lead : Z) : TutoringClass :=
  {| id := None; parent_phone := "+15550100"; child_name := "Ann";
     subject := "Math"; day_of_week := day; class_time := time;
     reminder_minutes := lead; is_active := true; created_at := None |}.

Definition friday : TutoringClass := request "Friday" "18:00" 15.
Definition monday_early : TutoringClass := request "Monday" "00:10" 30.
Definition funday : TutoringClass := request "Funday" "18:00" 15.

Definition after_friday : State := (create_class env1 friday initial_state).2.

End Sample.

(** ** The other handlers of [main.py] *)

(** The pydantic model [Parent]; [parents_db] stores its [.dict()]. *)
Record Parent : Type := mk_parent {
  phone : string;
  name : string;
  children : list string;
  timezone : string
}.

Global Instance Parent_eq_dec : EqDecision Parent.
Proof. solve_decision. Defined.

(** [POST /parents/].  [parents_db] is a store of its own: no other
    handler reads or writes it except [health_check], so it is threaded
    separately from [State]. *)
Definition create_parent (parent : Parent) (parents_db : gmap string Parent)
  : outcome Response * gmap string Parent :=
  match parents_db !! phone parent with
  | Some _ => (Raised (HTTPException 400 "Parent already exists"), parents_db)
  | None =>
      (Returned [("message", "Parent registered successfully"); ("phone", phone parent)],
       <[phone parent := parent]> parents_db)
  end.

(** [GET /parents/{phone}]. *)
Definition get_parent (ph : string) (parents_db : gmap string Parent) : outcome Parent :=
  match parents_db !! ph with
  | None => Raised (HTTPException 404 "Parent not found")
  | Some p => Returned p
  end.

(** [GET /messages/{phone}]. *)
Definition get_messages (ph : string) (s : State) : list Message :=
  List.filter (fun msg => bool_decide (msg_phone msg = ph)) (messages_db s).

(** [GET /classes/parent/{phone}].  The records are listed in the order
    of the finite map, not in the insertion order of the Python dict:
    only membership in the result is meaningful in this model. *)
Definition get_parent_classes (ph : string) (s : State) : list TutoringClass :=
  List.filter (fun class_data => bool_decide (parent_phone class_data = ph))
    (snd <$> map_to_list (classes_db s)).

(** The JSON object of [GET /health]. *)
Record Health : Type := mk_health {
  status : string;
  timestamp : datetime;
  total_parents : nat;
  total_classes : nat;
  scheduled_jobs : nat
}.

Definition health_check (e : Env) (parents_db : gmap string Parent) (s : State) : Health :=
  {| status := "healthy"; timestamp := now e;
     total_parents := size parents_db;
     total_classes := size (classes_db s);
     scheduled_jobs := length (scheduler_jobs s) |}.

(** ** The class form of the front end ([app.py]) *)

(** The options of the weekday select box. *)
Definition weekday_options : list string :=
  ["Monday"; "Tuesday"; "Wednesday"; "Thursday"; "Friday"; "Saturday"; "Sunday"].

(** [%H] and [%M] of [strftime]: two digits, zero padded. *)
Definition two_digits (n : Z) : string :=
  if decide (n < 10) then "0" +:+ pretty n else pretty n.

(** [class_time.strftime("%H:%M")] for the time of day [h]:[m]. *)
Definition strftime_HM (h m : Z) : string :=
  two_digits h +:+ ":" +:+ two_digits m.

(** The body [class_data] the form posts to [/classes/]. *)
Definition class_data (session_phone child subj day : string) (h m lead : Z)
  : TutoringClass :=
  {| id := None; parent_phone := session_phone; child_name := child;
     subject := subj; day_of_week := day; class_time := strftime_HM h m;
     reminder_minutes := lead; is_active := true; created_at := None |}.

(** [s.count(c)] for a one-character [c]. *)
Fixpoint count_char (c : ascii) (s : string) : nat :=
  match s with
  | EmptyString => 0
  | String c' s' => ((if decide (c' = c) then 1 else 0) + count_char c s')%nat
  end.

(** The record and the jobs of class [cid] are the same in [s] and [s']. *)
Definition same_class_at (cid : string) (s s' : State) : Prop :=
  classes_db s' !! cid = classes_db s !! cid /\
  Scheduler.jobs_with_id (reminder_id cid) (scheduler_jobs s')
  = Scheduler.jobs_with_id (reminder_id cid) (scheduler_jobs s).

(** The JSON object [update_class] returns. *)
Definition updated_response : Response := [("message", "Class updated successfully")].

(** The entry [send_class_reminder] appends to [messages_db] for a record. *)
Definition reminder_entry (e : Env) (tc : TutoringClass) : Message :=
  {| msg_id := uuid4 e; msg_phone := parent_phone tc;
     msg_message := reminder_message tc; msg_timestamp := now e;
     msg_status := "sent" |}.

(** [schedule_reminder] returns instead of raising: the weekday is not
    known, or the time does not parse, or it is a time of day and the lead
    time neither overflows [timedelta] nor leaves the calendar. *)
Definition schedule_returns (today : datetime) (tc : TutoringClass) : Prop :=
  day_mapping (day_of_week tc) = None \/
  match parse_class_time (class_time tc) with
  | None => True
  | Some (h, m) =>
      (0 <= h <= 23 /\ 0 <= m <= 59) /\
      - max_delta_days <= reminder_minutes tc / 1440 <= max_delta_days /\
      1 <= (ordinal today * 1440 + h * 60 + m - reminder_minutes tc) / 1440 <= max_ordinal
  end.

(** The caller of [create_class] gets the response that carries the id. *)
Definition create_returns_id (e : Env) (tc : TutoringClass) (s : State) : Prop :=
  (create_class e tc s).1 = Returned (created_response e).

(** A clock reading at second 0 of its minute, where triggers are due. *)
Definition whole_minute (d : datetime) : Prop :=
  second d = 0 /\ microsecond d = 0.

(** * Properties *)

(** ** The job store *)

Section JobStore.
Import Scheduler.
Implicit Types (j : Job) (js : list Job) (k jid : string).

Lemma count_jobs_cons k j js :
  count_jobs k (j :: js) =
  ((if decide (job_id j = k) then 1 else 0) + count_jobs k js)%nat.
Proof.
  unfold count_jobs, jobs_with_id. simpl.
  case_bool_decide; case_decide; simpl; congruence.
Qed.

Lemma count_jobs_app k js1 js2 :
  count_jobs k (js1 ++ js2) = (count_jobs k js1 + count_jobs k js2)%nat.
Proof.
  induction js1 as [|j js1 IH]; [done|].
  rewrite <- app_comm_cons, !count_jobs_cons, IH. lia.
Qed.

Lemma lookup_job_cons k j js :
  lookup_job k (j :: js) = if decide (job_id j = k) then Some j else lookup_job k js.
Proof. unfold lookup_job. simpl. case_bool_decide; case_decide; congruence. Qed.

Lemma lookup_job_head k js : lookup_job k js = head (jobs_with_id k js).
Proof.
  unfold lookup_job, jobs_with_id. induction js as [|j js IH]; [done|].
  simpl. by case_bool_decide.
Qed.

(** One entry under the id: it is the one [lookup_job] finds. *)
Lemma jobs_with_id_singleton k js j :
  lookup_job k js = Some j -> count_jobs k js = 1%nat -> jobs_with_id k js = [j].
Proof.
  rewrite lookup_job_head. unfold count_jobs.
  destruct (jobs_with_id k js) as [|j' [|? ?]]; simpl; try done.
  by intros [= ->].
Qed.

Lemma lookup_job_None k js : lookup_job k js = None <-> count_jobs k js = 0%nat.
Proof.
  induction js as [|j js IH]; [done|].
  rewrite lookup_job_cons, count_jobs_cons. case_decide.
  - split; [discriminate | lia].
  - exact IH.
Qed.

Lemma lookup_job_Some k js j :
  lookup_job k js = Some j -> job_id j = k /\ j ∈ js.
Proof.
  induction js as [|j' js IH]; [done|].
  rewrite lookup_job_cons. case_decide.
  - intros [= <-]. split; [done | left].
  - intros [? ?]%IH. split; [done | by right].
Qed.

Lemma count_jobs_zero k js :
  count_jobs k js = 0%nat -> Forall (fun j => job_id j <> k) js.
Proof.
  induction js as [|j js IH]; [constructor|].
  rewrite count_jobs_cons. case_decide; [lia|].
  intros Hc. constructor; [done | by apply IH].
Qed.

Lemma count_replace_first k j js :
  count_jobs k (replace_first j js) = count_jobs k js.
Proof.
  induction js as [|j' js IH]; [done|]. simpl. case_decide as Hid.
  - rewrite !count_jobs_cons, Hid. done.
  - rewrite !count_jobs_cons, IH. done.
Qed.

Lemma lookup_replace_first j js :
  is_Some (lookup_job (job_id j) js) ->
  lookup_job (job_id j) (replace_first j js) = Some j.
Proof.
  induction js as [|j' js IH]; [by intros [? ?]|].
  rewrite lookup_job_cons. simpl. case_decide as Hid.
  - intros _. rewrite lookup_job_cons. by case_decide.
  - intros Hs. rewrite lookup_job_cons. case_decide; [done | by apply IH].
Qed.

Lemma Forall_replace_first (P : Job -> Prop) j js :
  P j -> Forall P js -> Forall P (replace_first j js).
Proof.
  intros Hj. induction 1 as [|j' js Hj' Hjs IH]; [constructor|].
  simpl. case_decide; constructor; done.
Qed.

Lemma count_remove_first k jid js :
  count_jobs k (remove_first jid js) =
  if decide (k = jid) then Nat.pred (count_jobs k js) else count_jobs k js.
Proof.
  induction js as [|j js IH]; [by case_decide|].
  simpl. rewrite (count_jobs_cons k j js).
  destruct (decide (job_id j = jid)) as [Hid|Hid].
  - subst jid. destruct (decide (k = job_id j)) as [->|Hk].
    + rewrite decide_True by done. simpl. lia.
    + rewrite decide_False by congruence. simpl. lia.
  - rewrite count_jobs_cons, IH.
    destruct (decide (k = jid)) as [->|Hk]; [|done].
    rewrite decide_False by congruence. simpl. lia.
Qed.

Lemma Forall_remove_first (P : Job -> Prop) jid js :
  Forall P js -> Forall P (remove_first jid js).
Proof.
  induction 1 as [|j js Hj Hjs IH]; [constructor|].
  simpl. case_decide; [done | by constructor].
Qed.

End JobStore.

(** ** Installing and removing the job of a class *)

Section Install.
Import Scheduler.
Implicit Types (j : Job) (js : list Job) (k cid : string) (t : CronTrigger).

Lemma reminder_id_inj cid1 cid2 : reminder_id cid1 = reminder_id cid2 -> cid1 = cid2.
Proof. unfold reminder_id. apply String.app_inj. Qed.

Lemma lookup_job_app_absent k js1 js2 :
  lookup_job k js1 = None -> lookup_job k (js1 ++ js2) = lookup_job k js2.
Proof.
  induction js1 as [|j js1 IH]; [done|].
  rewrite <- app_comm_cons, !lookup_job_cons. case_decide; [done | exact IH].
Qed.

Lemma remove_first_absent k js :
  count_jobs k js = 0%nat -> remove_first k js = js.
Proof.
  intros Hc%count_jobs_zero. induction Hc as [|j js Hj Hjs IH]; [done|].
  simpl. rewrite decide_False by done. by rewrite IH.
Qed.

(** With [replace_existing=True] the call never raises: it appends when
    the id is free and replaces in place otherwise. *)
Lemma install_eq cid t js :
  install cid t js =
  inr (if decide (count_jobs (reminder_id cid) js = 0%nat)
       then js ++ [reminder_job cid t]
       else replace_first (reminder_job cid t) js).
Proof.
  unfold install, add_job, store_add_job, store_update_job. simpl.
  destruct (lookup_job (reminder_id cid) js) as [j|] eqn:Hl.
  - rewrite decide_False; [done|].
    intros Hc%lookup_job_None. congruence.
  - apply lookup_job_None in Hl. by rewrite decide_True.
Qed.

Lemma install_count cid t js js' k :
  install cid t js = inr js' ->
  count_jobs k js' =
  if decide (k = reminder_id cid) then Nat.max 1 (count_jobs k js)
  else count_jobs k js.
Proof.
  rewrite install_eq. intros [= <-].
  destruct (decide (count_jobs (reminder_id cid) js = 0%nat)) as [Hz|Hnz].
  - rewrite count_jobs_app, count_jobs_cons. simpl.
    destruct (decide (k = reminder_id cid)) as [->|Hk].
    + rewrite decide_True by done. rewrite Hz. done.
    + rewrite decide_False by congruence. unfold count_jobs at 2, jobs_with_id. simpl. lia.
  - rewrite count_replace_first. case_decide; [subst k; lia | done].
Qed.

Lemma install_lookup cid t js js' :
  install cid t js = inr js' ->
  lookup_job (reminder_id cid) js' = Some (reminder_job cid t).
Proof.
  rewrite install_eq. intros [= <-].
  destruct (decide (count_jobs (reminder_id cid) js = 0%nat)) as [Hz|Hnz].
  - rewrite lookup_job_app_absent by by apply lookup_job_None.
    rewrite lookup_job_cons. simpl. by rewrite decide_True.
  - apply (lookup_replace_first (reminder_job cid t)). simpl.
    destruct (lookup_job (reminder_id cid) js) eqn:Hl; [by eexists|].
    by apply lookup_job_None in Hl.
Qed.

Lemma install_Forall (P : Job -> Prop) cid t js js' :
  install cid t js = inr js' ->
  P (reminder_job cid t) -> Forall P js -> Forall P js'.
Proof.
  rewrite install_eq. intros [= <-] Hj Hjs. case_decide.
  - apply Forall_app. split; [done | by constructor].
  - by apply Forall_replace_first.
Qed.

Lemma install_one_per_id cid t js js' :
  install cid t js = inr js' -> one_per_id js -> one_per_id js'.
Proof.
  intros Hi Hu k. rewrite (install_count _ _ _ _ k Hi).
  specialize (Hu k). case_decide; lia.
Qed.

Lemma remove_old_reminder_jobs cid s :
  scheduler_jobs (remove_old_reminder cid s) =
  remove_first (reminder_id cid) (scheduler_jobs s).
Proof.
  unfold remove_old_reminder, remove_job.
  destruct (lookup_job (reminder_id cid) (scheduler_jobs s)) eqn:Hl; [done|].
  apply lookup_job_None in Hl. by rewrite remove_first_absent.
Qed.

Lemma remove_old_reminder_classes cid s :
  classes_db (remove_old_reminder cid s) = classes_db s.
Proof.
  unfold remove_old_reminder.
  by destruct (remove_job (reminder_id cid) (scheduler_jobs s)).
Qed.

Lemma remove_old_reminder_messages cid s :
  messages_db (remove_old_reminder cid s) = messages_db s.
Proof.
  unfold remove_old_reminder.
  by destruct (remove_job (reminder_id cid) (scheduler_jobs s)).
Qed.

(** Once the job of a class is removed from a store with one entry per
    id, no job under that id is left. *)
Lemma remove_first_gone k js :
  one_per_id js -> Forall (fun j => job_id j <> k) (remove_first k js).
Proof.
  intros Hu. apply count_jobs_zero. rewrite count_remove_first.
  rewrite decide_True by done. specialize (Hu k). lia.
Qed.

Lemma remove_first_one_per_id k js :
  one_per_id js -> one_per_id (remove_first k js).
Proof.
  intros Hu k'. rewrite count_remove_first. specialize (Hu k').
  case_decide; lia.
Qed.

End Install.

(** ** The trigger computation *)

Section TriggerComputation.
Implicit Types (d : datetime) (tc : TutoringClass) (t : CronTrigger).

Lemma compute_trigger_set_id d v tc :
  compute_trigger d (set_id v tc) = compute_trigger d tc.
Proof. reflexivity. Qed.

Lemma compute_trigger_set_created_at d v tc :
  compute_trigger d (set_created_at v tc) = compute_trigger d tc.
Proof. reflexivity. Qed.

Lemma replace_time_Some d h m c :
  replace_time d h m = Some c ->
  (0 <= h <= 23 /\ 0 <= m <= 59) /\
  ordinal c = ordinal d /\ hour c = h /\ minute c = m.
Proof.
  unfold replace_time. case_bool_decide; [|done]. intros [= <-]. done.
Qed.

(** The hour and minute of the difference do not depend on the date. *)
Lemma sub_minutes_Some c n r :
  sub_minutes c n = Some r ->
  hour r = ((hour c * 60 + minute c - n) mod 1440) / 60 /\
  minute r = ((hour c * 60 + minute c - n) mod 1440) mod 60.
Proof.
  unfold sub_minutes. case_bool_decide; [|done]. intros [= <-]. simpl.
  replace (ordinal c * 1440 + hour c * 60 + minute c - n)
    with (hour c * 60 + minute c - n + ordinal c * 1440) by lia.
  rewrite Z.mod_add by lia. done.
Qed.

(** What a computed trigger is: the weekday of the class itself, and the
    wall-clock time of the class moved back by the lead time modulo one
    day. *)
Lemma compute_trigger_Trigger d tc t :
  compute_trigger d tc = Trigger t ->
  exists dow h m,
    day_mapping (day_of_week tc) = Some dow /\
    parse_class_time (class_time tc) = Some (h, m) /\
    (0 <= h <= 23 /\ 0 <= m <= 59) /\
    t = {| cron_day_of_week := dow;
           cron_hour := ((h * 60 + m - reminder_minutes tc) mod 1440) / 60;
           cron_minute := ((h * 60 + m - reminder_minutes tc) mod 1440) mod 60 |}.
Proof.
  unfold compute_trigger.
  destruct (day_mapping (day_of_week tc)) as [dow|]; [|done].
  destruct (parse_class_time (class_time tc)) as [[h m]|]; [|done].
  destruct (replace_time d h m) as [c|] eqn:Hc; [|done].
  destruct (timedelta_minutes (reminder_minutes tc)) as [n|] eqn:Hn; [|done].
  destruct (sub_minutes c n) as [r|] eqn:Hr; [|done].
  intros [= <-]. exists dow, h, m.
  apply replace_time_Some in Hc as (Hrange & _ & Hh & Hm).
  apply sub_minutes_Some in Hr as [-> ->].
  unfold timedelta_minutes in Hn. case_bool_decide; [|done].
  injection Hn as <-. rewrite Hh, Hm. done.
Qed.

Lemma compute_trigger_deterministic d d' tc t t' :
  compute_trigger d tc = Trigger t -> compute_trigger d' tc = Trigger t' -> t = t'.
Proof.
  intros (dow & h & m & Hd & Hp & _ & ->)%compute_trigger_Trigger.
  intros (dow' & h' & m' & Hd' & Hp' & _ & ->)%compute_trigger_Trigger.
  congruence.
Qed.

Lemma day_mapping_range day dow : day_mapping day = Some dow -> 0 <= dow <= 6.
Proof.
  unfold day_mapping. repeat case_decide; intros [= <-]; lia.
Qed.

End TriggerComputation.

(** ** What the handlers do to each store *)

Section Handlers.
Implicit Types (e : Env) (s : State) (cid : string) (tc : TutoringClass).

Lemma schedule_reminder_spec e cid tc s :
  match compute_trigger (now e) tc with
  | InvalidDay =>
      schedule_reminder e cid tc s =
      (Returned tt, log ERROR ("Invalid day: " +:+ day_of_week tc) s)
  | InvalidTimeFormat =>
      schedule_reminder e cid tc s =
      (Returned tt, log ERROR ("Invalid time format: " +:+ class_time tc) s)
  | DatetimeRaised => schedule_reminder e cid tc s = (Raised DatetimeError, s)
  | Trigger t =>
      exists js,
        install cid t (scheduler_jobs s) = inr js /\
        schedule_reminder e cid tc s =
        (Returned tt,
         log INFO ("Scheduled reminder for class " +:+ cid) (set_scheduler_jobs js s))
  end.
Proof.
  unfold schedule_reminder.
  destruct (compute_trigger (now e) tc) as [| | |t]; try done.
  rewrite install_eq. eexists. split; reflexivity.
Qed.

Lemma schedule_reminder_classes e cid tc s :
  classes_db (schedule_reminder e cid tc s).2 = classes_db s.
Proof.
  pose proof (schedule_reminder_spec e cid tc s) as H.
  destruct (compute_trigger (now e) tc); try (by rewrite H).
  destruct H as (js & _ & ->). done.
Qed.

Lemma schedule_reminder_messages e cid tc s :
  messages_db (schedule_reminder e cid tc s).2 = messages_db s.
Proof.
  pose proof (schedule_reminder_spec e cid tc s) as H.
  destruct (compute_trigger (now e) tc); try (by rewrite H).
  destruct H as (js & _ & ->). done.
Qed.

Lemma send_class_reminder_classes e cid s :
  classes_db (send_class_reminder e cid s).2 = classes_db s.
Proof.
  unfold send_class_reminder.
  destruct (classes_db s !! cid) as [tc|]; [|done]. by destruct (is_active tc).
Qed.

Lemma send_class_reminder_jobs e cid s :
  scheduler_jobs (send_class_reminder e cid s).2 = scheduler_jobs s.
Proof.
  unfold send_class_reminder.
  destruct (classes_db s !! cid) as [tc|]; [|done]. by destruct (is_active tc).
Qed.

Lemma send_manual_reminder_classes e cid req s :
  classes_db (send_manual_reminder e cid req s).2 = classes_db s.
Proof.
  unfold send_manual_reminder. destruct (classes_db s !! cid); [|done].
  pose proof (send_class_reminder_classes e cid s).
  by destruct (send_class_reminder e cid s) as [[] ?].
Qed.

Lemma send_manual_reminder_jobs e cid req s :
  scheduler_jobs (send_manual_reminder e cid req s).2 = scheduler_jobs s.
Proof.
  unfold send_manual_reminder. destruct (classes_db s !! cid); [|done].
  pose proof (send_class_reminder_jobs e cid s).
  by destruct (send_class_reminder e cid s) as [[] ?].
Qed.

(** The state [create_class] leaves: the record is stored first, then
    [schedule_reminder] runs on it. *)
Lemma create_class_state e tc s :
  (create_class e tc s).2 =
  (schedule_reminder e (uuid4 e) (created_record e tc)
     (set_classes_db (insert (uuid4 e) (created_record e tc)) s)).2.
Proof.
  unfold create_class, created_record.
  by destruct (schedule_reminder _ _ _ _) as [[] ?].
Qed.

Lemma update_class_state e cid tc s :
  is_Some (classes_db s !! cid) ->
  (update_class e cid tc s).2 =
  (schedule_reminder e cid (set_id (Some cid) tc)
     (set_classes_db (insert cid (set_id (Some cid) tc))
        (remove_old_reminder cid s))).2.
Proof.
  intros [old Hold]. unfold update_class. rewrite Hold.
  by destruct (schedule_reminder _ _ _ _) as [[] ?].
Qed.

End Handlers.

(** ** The registry invariant *)

Section RegistryInvariant.
Import Scheduler.
Variables lo hi : Z.
Implicit Types (e : Env) (s : State) (cid : string) (tc : TutoringClass) (j : Job).

Lemma job_matches_record_ext s s' j :
  classes_db s' = classes_db s -> job_matches_record s j -> job_matches_record s' j.
Proof. unfold job_matches_record. by intros ->. Qed.

Lemma registry_consistent_ext s s' :
  classes_db s' = classes_db s -> scheduler_jobs s' = scheduler_jobs s ->
  registry_consistent lo hi s -> registry_consistent lo hi s'.
Proof.
  intros Hc Hj [Hu Hs Hk]. split; rewrite ?Hj, ?Hc; try done.
  eapply Forall_impl; [exact Hs|]. intros j. by apply job_matches_record_ext.
Qed.

(** A job under the id of a class that changes tells its record apart. *)
Lemma job_other_class s cid j :
  job_matches_record s j -> job_id j <> reminder_id cid -> job_args j <> cid.
Proof. intros [Hid _] Hne Hargs. apply Hne. by rewrite Hid, Hargs. Qed.

Lemma job_matches_record_frame s f cid j :
  (forall m cid', cid' <> cid -> f m !! cid' = m !! cid') ->
  job_matches_record s j -> job_id j <> reminder_id cid ->
  job_matches_record (set_classes_db f s) j.
Proof.
  intros Hf Hj Hne. pose proof (job_other_class _ _ _ Hj Hne) as Hargs.
  destruct Hj as (Hid & tc & Htc & Hd). split; [done|].
  exists tc. split; [|done]. simpl. by rewrite Hf.
Qed.

(** No record, no job. *)
Lemma no_record_no_job s cid :
  Forall (job_matches_record s) (scheduler_jobs s) ->
  classes_db s !! cid = None ->
  count_jobs (reminder_id cid) (scheduler_jobs s) = 0%nat.
Proof.
  intros Hs Hnone. apply lookup_job_None.
  destruct (lookup_job (reminder_id cid) (scheduler_jobs s)) as [j|] eqn:Hl; [|done].
  apply lookup_job_Some in Hl as [Hid Hin].
  rewrite Forall_forall in Hs. destruct (Hs j Hin) as (Hid' & tc & Htc & _).
  rewrite Hid in Hid'. apply reminder_id_inj in Hid'. congruence.
Qed.

(** [schedule_reminder] on a stored record whose id has no job yet. *)
Lemma schedule_reminder_consistent e cid tc s :
  lo <= ordinal (now e) <= hi ->
  classes_db s !! cid = Some tc ->
  one_per_id (scheduler_jobs s) ->
  Forall (job_matches_record s) (scheduler_jobs s) ->
  (forall cid' tc', cid' <> cid -> classes_db s !! cid' = Some tc' ->
     schedulable lo hi tc' ->
     (1 <= count_jobs (reminder_id cid') (scheduler_jobs s))%nat) ->
  registry_consistent lo hi (schedule_reminder e cid tc s).2.
Proof.
  intros Hclock Htc Hu Hs Hk.
  assert (Hstay : (forall t, compute_trigger (now e) tc <> Trigger t) ->
                  registry_consistent lo hi s).
  { intros Hno. split; [done..|]. intros cid' tc' Htc' Hsched.
    destruct (decide (cid' = cid)) as [->|Hne]; [|by eapply Hk].
    assert (tc' = tc) as -> by congruence.
    destruct (Hsched (now e) Hclock) as [t Ht]. by destruct (Hno t). }
  pose proof (schedule_reminder_spec e cid tc s) as Hspec.
  destruct (compute_trigger (now e) tc) as [| | |t] eqn:Hct.
  - rewrite Hspec. eapply registry_consistent_ext; [| |by apply Hstay]; done.
  - rewrite Hspec. eapply registry_consistent_ext; [| |by apply Hstay]; done.
  - rewrite Hspec. by apply Hstay.
  - destruct Hspec as (js & Hi & ->). simpl. split; simpl.
    + by eapply install_one_per_id.
    + eapply install_Forall; [exact Hi| |].
      * split; [done|]. exists tc. split; [done|]. by exists (now e).
      * eapply Forall_impl; [exact Hs|]. intros j.
        by apply job_matches_record_ext.
    + intros cid' tc' Htc' Hsched.
      rewrite (install_count _ _ _ _ _ Hi).
      destruct (decide (cid' = cid)) as [->|Hne].
      * rewrite decide_True by done. lia.
      * rewrite decide_False by (by intros ?%reminder_id_inj). by eapply Hk.
Qed.

Lemma create_class_consistent e tc s :
  lo <= ordinal (now e) <= hi ->
  classes_db s !! uuid4 e = None ->
  registry_consistent lo hi s ->
  registry_consistent lo hi (create_class e tc s).2.
Proof.
  intros Hclock Hfresh [Hu Hs Hk]. rewrite create_class_state.
  pose proof (no_record_no_job _ _ Hs Hfresh) as Hz%count_jobs_zero.
  apply schedule_reminder_consistent; simpl; try done.
  - apply lookup_insert_eq.
  - rewrite Forall_forall in Hs, Hz. apply Forall_forall. intros j Hj.
    apply (job_matches_record_frame _ _ (uuid4 e)); auto.
    intros m cid' Hne. by apply lookup_insert_ne.
  - intros cid' tc' Hne Htc'. rewrite lookup_insert_ne in Htc' by done.
    by apply Hk.
Qed.

(** Both [update_class] and [delete_class] first drop the job of the class. *)
Lemma removed_jobs_frame s f cid :
  (forall m cid', cid' <> cid -> f m !! cid' = m !! cid') ->
  one_per_id (scheduler_jobs s) ->
  Forall (job_matches_record s) (scheduler_jobs s) ->
  Forall (job_matches_record (set_classes_db f (remove_old_reminder cid s)))
    (scheduler_jobs (remove_old_reminder cid s)).
Proof.
  intros Hf Hu Hs. rewrite remove_old_reminder_jobs.
  pose proof (remove_first_gone (reminder_id cid) _ Hu) as Hgone.
  pose proof (Forall_remove_first _ (reminder_id cid) _ Hs) as Hs'.
  rewrite Forall_forall in Hgone, Hs'. apply Forall_forall. intros j Hj.
  apply (job_matches_record_frame _ _ cid); auto.
  eapply job_matches_record_ext; [apply remove_old_reminder_classes|]. auto.
Qed.

Lemma removed_jobs_count s cid cid' :
  cid' <> cid ->
  count_jobs (reminder_id cid') (scheduler_jobs (remove_old_reminder cid s)) =
  count_jobs (reminder_id cid') (scheduler_jobs s).
Proof.
  intros Hne. rewrite remove_old_reminder_jobs, count_remove_first.
  by rewrite decide_False by (by intros ?%reminder_id_inj).
Qed.

Lemma update_class_consistent e cid tc s :
  lo <= ordinal (now e) <= hi ->
  registry_consistent lo hi s ->
  registry_consistent lo hi (update_class e cid tc s).2.
Proof.
  intros Hclock Hrc.
  destruct (classes_db s !! cid) as [old|] eqn:Hold;
    [|by unfold update_class; rewrite Hold].
  rewrite update_class_state by by eexists.
  destruct Hrc as [Hu Hs Hk].
  apply schedule_reminder_consistent; simpl; try done.
  - apply lookup_insert_eq.
  - rewrite remove_old_reminder_jobs. by apply remove_first_one_per_id.
  - apply removed_jobs_frame; try done.
    intros m cid' Hne. by apply lookup_insert_ne.
  - intros cid' tc' Hne Htc'.
    rewrite lookup_insert_ne, remove_old_reminder_classes in Htc' by done.
    rewrite removed_jobs_count by done. by apply Hk.
Qed.

Lemma delete_class_consistent cid s :
  registry_consistent lo hi s ->
  registry_consistent lo hi (delete_class cid s).2.
Proof.
  intros Hrc. unfold delete_class.
  destruct (classes_db s !! cid) as [old|] eqn:Hold; [|done].
  destruct Hrc as [Hu Hs Hk]. simpl. split; simpl.
  - rewrite remove_old_reminder_jobs. by apply remove_first_one_per_id.
  - apply removed_jobs_frame; try done.
    intros m cid' Hne. by apply lookup_delete_ne.
  - intros cid' tc' Htc' Hsched.
    destruct (decide (cid' = cid)) as [->|Hne];
      [by rewrite lookup_delete_eq in Htc'|].
    rewrite lookup_delete_ne, remove_old_reminder_classes in Htc' by done.
    rewrite removed_jobs_count by done. by eapply Hk.
Qed.

Lemma initial_state_consistent : registry_consistent lo hi initial_state.
Proof.
  split; simpl.
  - intros k. unfold count_jobs, jobs_with_id. simpl. lia.
  - constructor.
  - intros cid tc Htc. by rewrite lookup_empty in Htc.
Qed.

Lemma reachable_consistent s : reachable lo hi s -> registry_consistent lo hi s.
Proof.
  induction 1 as [|e tc s _ IH Hclock Hfresh|e cid tc s _ IH Hclock
                 |cid s _ IH|e cid req s _ IH|e cid s _ IH Hdue].
  - apply initial_state_consistent.
  - by apply create_class_consistent.
  - by apply update_class_consistent.
  - by apply delete_class_consistent.
  - eapply registry_consistent_ext; [| |exact IH].
    + apply send_manual_reminder_classes.
    + apply send_manual_reminder_jobs.
  - eapply registry_consistent_ext; [| |exact IH].
    + apply send_class_reminder_classes.
    + apply send_class_reminder_jobs.
Qed.

End RegistryInvariant.

(** ** Trigger calculation: lead time against the week *)

Section LeadTime.
Implicit Types (d : datetime) (tc : TutoringClass) (t : CronTrigger).

(** The fire day is the class day, whatever the lead time. *)
Lemma compute_trigger_keeps_day d tc t :
  compute_trigger d tc = Trigger t ->
  day_mapping (day_of_week tc) = Some (cron_day_of_week t).
Proof.
  by intros (dow & h & m & Hd & _ & _ & ->)%compute_trigger_Trigger.
Qed.

(** When the lead time does not reach back past midnight of the class
    day, adding it to the fire spec gives the class day and time again. *)
Lemma add_lead_back_same_day d tc t dow h m :
  compute_trigger d tc = Trigger t ->
  day_mapping (day_of_week tc) = Some dow ->
  parse_class_time (class_time tc) = Some (h, m) ->
  0 <= reminder_minutes tc <= h * 60 + m ->
  add_lead_back t (reminder_minutes tc) = (dow, h, m).
Proof.
  intros (dow' & h' & m' & Hd & Hp & [Hh Hm] & ->)%compute_trigger_Trigger Hd' Hp' Hlead.
  rewrite Hd in Hd'. rewrite Hp in Hp'. simplify_eq.
  apply day_mapping_range in Hd.
  unfold add_lead_back, of_week_minute, week_minute, week_length. simpl.
  set (lead := reminder_minutes tc) in *.
  rewrite (Z.mod_small (h * 60 + m - lead)) by lia.
  assert (Hw : (dow * 1440 + (h * 60 + m - lead) / 60 * 60 +
                (h * 60 + m - lead) mod 60 + lead) mod (7 * 1440)
               = dow * 1440 + h * 60 + m).
  { rewrite Z.mod_small; Z.div_mod_to_equations; lia. }
  rewrite Hw. f_equal; [f_equal|]; Z.div_mod_to_equations; lia.
Qed.

(** Without rollover: Wednesday 16:00 with a lead of 30 minutes fires on
    Wednesday at 15:30. *)
Example wednesday_1600_fires_wednesday_1530 :
  compute_trigger Sample.clock (Sample.request "Wednesday" "16:00" 30)
  = Trigger {| cron_day_of_week := 2; cron_hour := 15; cron_minute := 30 |}.
Proof. vm_compute. reflexivity. Qed.

(** Create Friday 18:00 with a lead of 15 minutes, then update the lead to
    45 minutes: the one job of the class moves from 17:45 to 17:15. *)
Example friday_update_replaces_job :
  scheduler_jobs Sample.after_friday
    = [reminder_job "u1" {| cron_day_of_week := 4; cron_hour := 17; cron_minute := 45 |}] /\
  scheduler_jobs
    (update_class Sample.env2 "u1" (Sample.request "Friday" "18:00" 45)
       Sample.after_friday).2
    = [reminder_job "u1" {| cron_day_of_week := 4; cron_hour := 17; cron_minute := 15 |}].
Proof. split; vm_compute; reflexivity. Qed.

End LeadTime.

(** C1 (round-trip law of the trigger calculation).  The law asks that
    the fire spec plus the lead time, in weekly-minute space modulo the
    week, is the class day and time.  [schedule_reminder] moves only the
    hour and minute back and keeps the class weekday, so the law breaks
    as soon as the lead time reaches back past midnight: for Monday 00:10
    with a lead of 30 minutes the fire spec is Monday 23:40, and adding
    the 30 minutes back gives Tuesday 00:10, not Monday 00:10. *)
Theorem roundtrip_monday_0010_gives_tuesday :
  exists t,
    compute_trigger Sample.clock Sample.monday_early = Trigger t /\
    day_mapping (day_of_week Sample.monday_early) = Some 0 /\
    parse_class_time (class_time Sample.monday_early) = Some (0, 10) /\
    add_lead_back t (reminder_minutes Sample.monday_early) = (1, 0, 10) /\
    add_lead_back t (reminder_minutes Sample.monday_early) <> (0, 0, 10).
Proof.
  exists (mk_trigger 0 23 40). repeat split; try (vm_compute; reflexivity).
  vm_compute. discriminate.
Qed.

(** C2 (midnight and week rollover).  For Monday 00:10 with a lead of 30
    minutes the fire spec has to be Sunday 23:40.  The job that
    [create_class] installs fires on Monday at 23:40: the hour and minute
    are right, the weekday is that of the class and not the preceding
    day. *)
Theorem create_monday_0010_fires_monday_2340 :
  scheduler_jobs (create_class Sample.env1 Sample.monday_early initial_state).2
    = [reminder_job "u1" {| cron_day_of_week := 0; cron_hour := 23; cron_minute := 40 |}]
  /\ day_mapping "Sunday" = Some 6
  /\ day_mapping "Monday" = Some 0.
Proof. repeat split; vm_compute; reflexivity. Qed.

(** ** Creating a class *)

Section CreateClass.
Import Scheduler.
Implicit Types (e : Env) (s : State) (tc : TutoringClass).

Lemma create_class_classes e tc s :
  classes_db (create_class e tc s).2 =
  <[uuid4 e := created_record e tc]> (classes_db s).
Proof. by rewrite create_class_state, schedule_reminder_classes. Qed.

(** The handler returns its response unless [datetime] raised. *)
Lemma create_class_outcome e tc s :
  (create_class e tc s).1 =
  match compute_trigger (now e) tc with
  | DatetimeRaised => Raised DatetimeError
  | _ => Returned (created_response e)
  end.
Proof.
  pose proof (schedule_reminder_spec e (uuid4 e) (created_record e tc)
    (set_classes_db (insert (uuid4 e) (created_record e tc)) s)) as H.
  change (compute_trigger (now e) (created_record e tc))
    with (compute_trigger (now e) tc) in H.
  unfold create_class. unfold created_record in H.
  destruct (compute_trigger (now e) tc);
    [rewrite H..|destruct H as (js & _ & ->)]; done.
Qed.

(** What the scheduling half of [create_class] leaves in the job store
    and in the log. *)
Lemma create_class_registry e tc s :
  match compute_trigger (now e) tc with
  | InvalidDay =>
      scheduler_jobs (create_class e tc s).2 = scheduler_jobs s /\
      logger (create_class e tc s).2 =
      logger s ++ [(ERROR, "Invalid day: " +:+ day_of_week tc)]
  | InvalidTimeFormat =>
      scheduler_jobs (create_class e tc s).2 = scheduler_jobs s /\
      logger (create_class e tc s).2 =
      logger s ++ [(ERROR, "Invalid time format: " +:+ class_time tc)]
  | DatetimeRaised =>
      scheduler_jobs (create_class e tc s).2 = scheduler_jobs s /\
      logger (create_class e tc s).2 = logger s
  | Trigger t =>
      lookup_job (reminder_id (uuid4 e)) (scheduler_jobs (create_class e tc s).2)
      = Some (reminder_job (uuid4 e) t)
  end.
Proof.
  rewrite create_class_state.
  pose proof (schedule_reminder_spec e (uuid4 e) (created_record e tc)
    (set_classes_db (insert (uuid4 e) (created_record e tc)) s)) as H.
  change (compute_trigger (now e) (created_record e tc))
    with (compute_trigger (now e) tc) in H.
  destruct (compute_trigger (now e) tc); try (by rewrite H).
  destruct H as (js & Hi & ->). simpl. by eapply install_lookup.
Qed.

End CreateClass.

(** C3, as the specification has it, fails: a create request with a
    weekday that is not one of the seven names is not rejected. *)
Lemma create_funday_not_rejected :
  invalid_schedule_fields Sample.funday /\
  ~ create_rejected Sample.env1 Sample.funday initial_state.
Proof.
  split.
  - left. vm_compute. reflexivity.
  - intros [[x Hx] _]. vm_compute in Hx. discriminate.
Qed.

(** C3, amended.  [create_class] stores the record before it schedules,
    and [schedule_reminder] only logs a weekday it does not know or a time
    it cannot parse; a negative lead time is not looked at.  So for a
    request with an unknown weekday, or with a [plain] class time that
    does not parse or comes with a negative lead time that yields a
    trigger, the caller gets the success response, the record is stored
    under the new id, and: for an unknown weekday or an unparsable time
    the job store is unchanged and one ERROR line is logged; for a
    negative lead time that yields a trigger, the job is installed. *)
Theorem create_class_invalid_schedule_accepted (e : Env) (tc : TutoringClass) (s : State) :
  day_mapping (day_of_week tc) = None \/
  (PyStr.plain (class_time tc) /\
   (parse_class_time (class_time tc) = None \/
    (reminder_minutes tc < 0 /\ exists t, compute_trigger (now e) tc = Trigger t))) ->
  (create_class e tc s).1 = Returned (created_response e) /\
  classes_db (create_class e tc s).2 !! uuid4 e = Some (created_record e tc) /\
  match compute_trigger (now e) tc with
  | InvalidDay =>
      scheduler_jobs (create_class e tc s).2 = scheduler_jobs s /\
      logger (create_class e tc s).2 =
      logger s ++ [(ERROR, "Invalid day: " +:+ day_of_week tc)]
  | InvalidTimeFormat =>
      scheduler_jobs (create_class e tc s).2 = scheduler_jobs s /\
      logger (create_class e tc s).2 =
      logger s ++ [(ERROR, "Invalid time format: " +:+ class_time tc)]
  | DatetimeRaised => False
  | Trigger t =>
      Scheduler.lookup_job (reminder_id (uuid4 e)) (scheduler_jobs (create_class e tc s).2)
      = Some (reminder_job (uuid4 e) t)
  end.
Proof.
  intros Hinvalid.
  assert (Hnr : compute_trigger (now e) tc <> DatetimeRaised).
  { unfold compute_trigger. destruct Hinvalid as [Hd|[_ [Hp|[_ [t Ht]]]]].
    - by rewrite Hd.
    - rewrite Hp. by destruct (day_mapping (day_of_week tc)).
    - fold (compute_trigger (now e) tc). by rewrite Ht. }
  pose proof (create_class_outcome e tc s) as Ho.
  pose proof (create_class_registry e tc s) as Hr.
  rewrite create_class_classes, lookup_insert_eq.
  destruct (compute_trigger (now e) tc); done.
Qed.

Lemma create_class_invalid_schedule_accepted_witness :
  ((create_class Sample.env1 Sample.funday initial_state).1
     = Returned (created_response Sample.env1)) /\
  ((create_class Sample.env1 (Sample.request "Monday" "16:00" (-30)) initial_state).1
     = Returned (created_response Sample.env1)).
Proof.
  split.
  - refine (proj1 (create_class_invalid_schedule_accepted
                     Sample.env1 Sample.funday initial_state _)).
    left. vm_compute. reflexivity.
  - refine (proj1 (create_class_invalid_schedule_accepted Sample.env1
                     (Sample.request "Monday" "16:00" (-30)) initial_state _)).
    right. split; [split; [reflexivity | cbn; lia]|].
    right. split; [vm_compute; reflexivity|].
    exists (mk_trigger 0 16 30). vm_compute. reflexivity.
Defined.

(** ** Registry and records in reachable states *)

Section ReachableRegistry.
Import Scheduler.
Implicit Types (s : State) (cid : string) (tc : TutoringClass).

(** A record with a known weekday and a time in range is schedulable
    at every date from which the lead time does not leave the calendar. *)
Lemma schedulable_intro lo hi tc dow h m :
  day_mapping (day_of_week tc) = Some dow ->
  parse_class_time (class_time tc) = Some (h, m) ->
  0 <= h <= 23 /\ 0 <= m <= 59 ->
  - max_delta_days <= reminder_minutes tc / 1440 <= max_delta_days ->
  1 <= (lo * 1440 + h * 60 + m - reminder_minutes tc) / 1440 ->
  (hi * 1440 + h * 60 + m - reminder_minutes tc) / 1440 <= max_ordinal ->
  schedulable lo hi tc.
Proof.
  intros Hd Hp Hrange Hdelta Hlo Hhi d Hclock.
  unfold compute_trigger. rewrite Hd, Hp.
  unfold replace_time. rewrite bool_decide_true by done.
  unfold timedelta_minutes. rewrite bool_decide_true by done.
  unfold sub_minutes. simpl. rewrite bool_decide_true; [by eexists|].
  revert Hlo Hhi. unfold max_ordinal. Z.div_mod_to_equations. lia.
Qed.

Lemma registry_entry_of_record lo hi s cid tc :
  registry_consistent lo hi s ->
  classes_db s !! cid = Some tc -> schedulable lo hi tc ->
  exists j,
    jobs_with_id (reminder_id cid) (scheduler_jobs s) = [j] /\
    job_args j = cid /\
    forall d t, compute_trigger d tc = Trigger t -> job_trigger j = t.
Proof.
  intros [Hu Hs Hk] Htc Hsched.
  pose proof (Hk cid tc Htc Hsched) as Hge. pose proof (Hu (reminder_id cid)) as Hle.
  destruct (lookup_job (reminder_id cid) (scheduler_jobs s)) as [j|] eqn:Hl;
    [|apply lookup_job_None in Hl; lia].
  exists j. split; [apply jobs_with_id_singleton; [done | lia]|].
  apply lookup_job_Some in Hl as [Hid Hin].
  rewrite Forall_forall in Hs. destruct (Hs j Hin) as (Hid' & tc' & Htc' & d0 & Hd0).
  rewrite Hid in Hid'. apply reminder_id_inj in Hid'. subst cid.
  split; [done|]. intros d t Ht.
  assert (tc' = tc) as -> by congruence.
  by eapply compute_trigger_deterministic.
Qed.

Lemma count_jobs_nil k js : count_jobs k js = 0%nat -> jobs_with_id k js = [].
Proof. unfold count_jobs. by destruct (jobs_with_id k js). Qed.

End ReachableRegistry.






(** C6 (fire on an inactive record).  When the record is stored with
    [is_active] false, [send_class_reminder] returns normally and leaves
    the whole state as it was: nothing is appended to [messages_db]. *)
Theorem send_class_reminder_inactive (e : Env) (cid : string) (tc : TutoringClass)
    (s : State) :
  classes_db s !! cid = Some tc ->
  is_active tc = false ->
  send_class_reminder e cid s = (Returned tt, s).
Proof.
  intros Htc Hinactive. unfold send_class_reminder. by rewrite Htc, Hinactive.
Qed.

Lemma send_class_reminder_inactive_witness :
  let dormant := set_id (Some "u1")
    {| id := None; parent_phone := "+15550100"; child_name := "Ann";
       subject := "Math"; day_of_week := "Friday"; class_time := "18:00";
       reminder_minutes := 15; is_active := false; created_at := None |} in
  let s := set_classes_db (insert "u1" dormant) Sample.after_friday in
  send_class_reminder Sample.env2 "u1" s = (Returned tt, s).
Proof.
  intros dormant s.
  apply (send_class_reminder_inactive Sample.env2 "u1" dormant s).
  - vm_compute. reflexivity.
  - reflexivity.
Defined.



(** ** Updating a class *)

Section UpdateClass.
Implicit Types (e : Env) (s : State) (cid : string) (tc : TutoringClass).

(** [update_class] stores the request body with only [id] overwritten. *)
Lemma update_class_classes e cid tc s :
  is_Some (classes_db s !! cid) ->
  classes_db (update_class e cid tc s).2 =
  <[cid := set_id (Some cid) tc]> (classes_db s).
Proof.
  intros Hsome. rewrite update_class_state by done.
  by rewrite schedule_reminder_classes; simpl; rewrite remove_old_reminder_classes.
Qed.

End UpdateClass.

(** C8 ([id] and [created_at] are set once).  [update_class] puts the id
    of the path back on the request body but not the creation time, so
    the stored [created_at] becomes whatever the body carries.  For the
    class created by [Sample.env1] and then updated with a body that has
    no [created_at]: the record keeps the id ["u1"], and its [created_at],
    which was the clock reading of the creation, is [None]. *)
Theorem update_class_loses_created_at :
  let s1 := Sample.after_friday in
  let s2 := (update_class Sample.env2 "u1" (Sample.request "Friday" "19:00" 15) s1).2 in
  (created_at <$> classes_db s1 !! "u1") = Some (Some Sample.clock) /\
  (id <$> classes_db s1 !! "u1") = Some (Some "u1") /\
  (id <$> classes_db s2 !! "u1") = Some (Some "u1") /\
  (created_at <$> classes_db s2 !! "u1") = Some None.
Proof. repeat split; vm_compute; reflexivity. Qed.

(** ** Background firing after a delete *)

Section BackgroundFiring.
Import Scheduler.
Implicit Types (s : State) (cid : string) (d : datetime).

(** In a reachable state the scheduler never calls the dispatcher for
    an id without a stored record. *)
Lemma no_record_never_dispatched lo hi s cid d :
  reachable lo hi s ->
  classes_db s !! cid = None ->
  cid ∉ dispatcher_invocations d s.
Proof.
  intros [_ Hs _]%reachable_consistent Hnone Hin.
  unfold dispatcher_invocations, due_jobs in Hin.
  apply list_elem_of_fmap in Hin as (j & -> & Hj).
  apply list_elem_of_In, List.filter_In in Hj as [Hj _].
  apply list_elem_of_In in Hj.
  rewrite Forall_forall in Hs. destruct (Hs j Hj) as (_ & tc & Htc & _).
  congruence.
Qed.

Lemma delete_class_Returned cid s r s' :
  delete_class cid s = (Returned r, s') ->
  s' = (delete_class cid s).2 /\ classes_db s' !! cid = None.
Proof.
  intros Hdel. rewrite Hdel. split; [done|].
  unfold delete_class in Hdel. destruct (classes_db s !! cid); [|done].
  injection Hdel as _ <-. simpl. apply lookup_delete_eq.
Qed.

End BackgroundFiring.

(** C9 (no firing after a delete).  Once [delete_class] has returned for
    an id, in a reachable state, the record is gone, the job store has no
    entry under the id of the class, and at no clock reading, the
    previously scheduled fire time included, does the scheduler call
    [send_class_reminder] for that id. *)
Theorem delete_class_silences_reminder (lo hi : Z) (s s' : State) (cid : string)
    (r : Response) :
  reachable lo hi s ->
  delete_class cid s = (Returned r, s') ->
  classes_db s' !! cid = None /\
  Scheduler.jobs_with_id (reminder_id cid) (scheduler_jobs s') = [] /\
  forall d, cid ∉ dispatcher_invocations d s'.
Proof.
  intros Hreach [-> Hnone]%delete_class_Returned.
  assert (Hreach' : reachable lo hi (delete_class cid s).2) by by apply reach_delete.
  split; [done|]. split.
  - apply reachable_consistent in Hreach' as [_ Hs _].
    by apply count_jobs_nil, no_record_no_job.
  - intros d. by eapply no_record_never_dispatched.
Qed.

Lemma delete_class_silences_reminder_witness :
  let fire_time := {| ordinal := 739009; hour := 17; minute := 45;
                      second := 0; microsecond := 0 |} in
  "u1" ∈ dispatcher_invocations fire_time Sample.after_friday /\
  "u1" ∉ dispatcher_invocations fire_time (delete_class "u1" Sample.after_friday).2.
Proof.
  intros fire_time. split.
  - vm_compute. constructor.
  - assert (Hreach : reachable 700000 800000 Sample.after_friday).
    { apply reach_create.
      - apply reach_init.
      - vm_compute. split; discriminate.
      - apply lookup_empty. }
    apply (delete_class_silences_reminder 700000 800000 Sample.after_friday
             (delete_class "u1" Sample.after_friday).2 "u1"
             [("message", "Class deleted successfully")] Hreach).
    vm_compute. reflexivity.
Defined.

(** ** When [create_class] answers *)

Section CreateAnswers.
Implicit Types (e : Env) (s : State) (tc : TutoringClass).

(** [schedule_reminder] raises exactly when none of its return paths is
    taken. *)
Lemma compute_trigger_returns today tc :
  compute_trigger today tc <> DatetimeRaised <-> schedule_returns today tc.
Proof.
  unfold compute_trigger, schedule_returns.
  destruct (day_mapping (day_of_week tc)) as [dow|]; [|by split; [left|]].
  destruct (parse_class_time (class_time tc)) as [[h m]|]; [|by split; [right|]].
  unfold replace_time, timedelta_minutes, sub_minutes. simpl.
  destruct (decide (0 <= h <= 23 /\ 0 <= m <= 59)) as [Hr|Hr].
  2:{ rewrite bool_decide_false by done. split; [done|]. by intros [?|[? _]]. }
  rewrite bool_decide_true by done.
  destruct (decide (- max_delta_days <= reminder_minutes tc / 1440 <= max_delta_days))
    as [Hdelta|Hdelta].
  2:{ rewrite bool_decide_false by done. split; [done|]. by intros [?|(_ & ? & _)]. }
  rewrite bool_decide_true by done. simpl.
  destruct (decide (1 <= (ordinal today * 1440 + h * 60 + m - reminder_minutes tc) / 1440
                    <= max_ordinal)) as [Hdate|Hdate].
  - rewrite bool_decide_true by done. split; [by right | done].
  - rewrite bool_decide_false by done. split; [done|]. by intros [?|(_ & _ & ?)].
Qed.

Lemma create_returns_id_iff e tc s :
  create_returns_id e tc s <-> schedule_returns (now e) tc.
Proof.
  rewrite <- compute_trigger_returns. unfold create_returns_id.
  rewrite create_class_outcome. by destruct (compute_trigger (now e) tc).
Qed.

End CreateAnswers.





(** * Further properties of the code *)

(** ** The trigger computation and the class form *)

Section TriggerFacts.
Implicit Types (d : datetime) (tc : TutoringClass) (t : CronTrigger).

Lemma split_length sep s :
  length (PyStr.split sep s) = S (count_char sep s).
Proof.
  induction s as [|c s IH]; [done|]. simpl. case_decide.
  - simpl. by rewrite IH.
  - destruct (PyStr.split sep s) as [|p ps]; simpl in *; lia.
Qed.

Lemma parse_strftime_table :
  Forall (fun h => Forall (fun m => parse_class_time (strftime_HM h m) = Some (h, m))
                     (seqZ 0 60)) (seqZ 0 24).
Proof. apply (bool_decide_unpack _). vm_compute. exact I. Qed.

Lemma parse_strftime_in_range h m :
  0 <= h <= 23 -> 0 <= m <= 59 ->
  parse_class_time (strftime_HM h m) = Some (h, m).
Proof.
  intros Hh Hm. pose proof parse_strftime_table as Htab.
  rewrite Forall_forall in Htab.
  assert (Hin : h ∈ seqZ 0 24) by (apply elem_of_seqZ; lia).
  specialize (Htab h Hin). rewrite Forall_forall in Htab.
  apply Htab. apply elem_of_seqZ. lia.
Qed.

Lemma weekday_options_mapped day :
  day ∈ weekday_options -> exists dow, day_mapping day = Some dow.
Proof.
  unfold weekday_options. rewrite !elem_of_cons, elem_of_nil.
  intros [->|[->|[->|[->|[->|[->|[->|[]]]]]]]]; eexists; vm_compute; reflexivity.
Qed.

End TriggerFacts.

(** X1.  A trigger that [schedule_reminder] builds always has fields a
    cron trigger accepts: weekday 0..6, hour 0..23, minute 0..59. *)
Theorem compute_trigger_cron_range (d : datetime) (tc : TutoringClass) (t : CronTrigger) :
  compute_trigger d tc = Trigger t ->
  0 <= cron_day_of_week t <= 6 /\
  0 <= cron_hour t <= 23 /\
  0 <= cron_minute t <= 59.
Proof.
  intros (dow & h & m & Hd%day_mapping_range & _ & _ & ->)%compute_trigger_Trigger.
  simpl. split; [done|]. Z.div_mod_to_equations. lia.
Qed.

Lemma compute_trigger_cron_range_witness :
  0 <= cron_day_of_week (mk_trigger 0 23 40) <= 6 /\
  0 <= cron_hour (mk_trigger 0 23 40) <= 23 /\
  0 <= cron_minute (mk_trigger 0 23 40) <= 59.
Proof.
  refine (compute_trigger_cron_range Sample.clock Sample.monday_early _ _).
  vm_compute. reflexivity.
Defined.

(** X2.  When the lead time is not negative and does not reach back past
    midnight of the class day, the trigger is on the class weekday,
    exactly the lead time before the class time. *)
Theorem trigger_lead_within_day (d : datetime) (tc : TutoringClass) (t : CronTrigger)
    (h m : Z) :
  compute_trigger d tc = Trigger t ->
  parse_class_time (class_time tc) = Some (h, m) ->
  0 <= reminder_minutes tc <= h * 60 + m ->
  day_mapping (day_of_week tc) = Some (cron_day_of_week t) /\
  cron_hour t * 60 + cron_minute t = h * 60 + m - reminder_minutes tc.
Proof.
  intros Ht Hp Hlead. split; [by eapply compute_trigger_keeps_day|].
  apply compute_trigger_Trigger in Ht as (dow & h' & m' & _ & Hp' & [Hh Hm] & ->).
  rewrite Hp in Hp'. simplify_eq. simpl.
  rewrite (Z.mod_small (h' * 60 + m' - reminder_minutes tc)) by lia.
  Z.div_mod_to_equations. lia.
Qed.

Lemma trigger_lead_within_day_witness :
  day_mapping "Friday" = Some 4 /\ 17 * 60 + 45 = 18 * 60 + 0 - 15.
Proof.
  refine (trigger_lead_within_day Sample.clock Sample.friday (mk_trigger 4 17 45) 18 0 _ _ _).
  - vm_compute. reflexivity.
  - vm_compute. reflexivity.
  - vm_compute. split; discriminate.
Defined.

(** X3.  Lead times that differ by whole days give the same trigger:
    a lead of a day or more never moves the reminder to an earlier
    weekday. *)
Theorem trigger_lead_whole_days (d d' : datetime) (tc tc' : TutoringClass)
    (t t' : CronTrigger) (k : Z) :
  day_of_week tc' = day_of_week tc ->
  class_time tc' = class_time tc ->
  reminder_minutes tc' = reminder_minutes tc + 1440 * k ->
  compute_trigger d tc = Trigger t ->
  compute_trigger d' tc' = Trigger t' ->
  t' = t.
Proof.
  intros Hday Htime Hlead.
  intros (dow & h & m & Hd & Hp & _ & ->)%compute_trigger_Trigger.
  intros (dow' & h' & m' & Hd' & Hp' & _ & ->)%compute_trigger_Trigger.
  rewrite Hday, Hd in Hd'. rewrite Htime, Hp in Hp'. simplify_eq.
  rewrite Hlead.
  replace (h' * 60 + m' - (reminder_minutes tc + 1440 * k))
    with (h' * 60 + m' - reminder_minutes tc + (- k) * 1440) by lia.
  by rewrite Z.mod_add by lia.
Qed.

Lemma trigger_lead_whole_days_witness :
  mk_trigger 4 17 45 = mk_trigger 4 17 45.
Proof.
  refine (trigger_lead_whole_days Sample.clock Sample.clock Sample.friday
            (Sample.request "Friday" "18:00" (15 + 1440 * 2))
            (mk_trigger 4 17 45) (mk_trigger 4 17 45) 2 _ _ _ _ _);
    vm_compute; reflexivity.
Defined.

(** X4.  What the class form sends is what the backend reads: for every
    time of day, [parse_class_time] of its [%H:%M] rendering is that hour
    and minute. *)
Theorem parse_class_time_strftime (h m : Z) :
  0 <= h <= 23 -> 0 <= m <= 59 ->
  parse_class_time (strftime_HM h m) = Some (h, m).
Proof. apply parse_strftime_in_range. Qed.

Lemma parse_class_time_strftime_witness :
  parse_class_time (strftime_HM 7 5) = Some (7, 5).
Proof.
  refine (parse_class_time_strftime 7 5 _ _); vm_compute; split; discriminate.
Defined.

(** X5.  A class time is read only when it has exactly one colon: a time
    with seconds, or without a colon, is an invalid time format. *)
Theorem parse_class_time_one_colon (t : string) (h m : Z) :
  parse_class_time t = Some (h, m) -> count_char ":" t = 1%nat.
Proof.
  unfold parse_class_time. pose proof (split_length ":" t) as Hlen.
  destruct (PyStr.split ":" t) as [|a [|b [|c r]]]; try done.
  simpl in Hlen. intros _. lia.
Qed.

Lemma parse_class_time_one_colon_witness : count_char ":" "18:00" = 1%nat.
Proof.
  refine (parse_class_time_one_colon "18:00" 18 0 _). vm_compute. reflexivity.
Defined.

(** X6.  A [plain] class time that parses but is not a time of day (hour
    above 23, minute above 59, or negative) is not caught by
    [schedule_reminder]: [create_class] raises, and the record it stored
    first stays stored, without a job. *)
Theorem create_class_time_out_of_range (e : Env) (tc : TutoringClass) (s : State)
    (dow h m : Z) :
  PyStr.plain (class_time tc) ->
  day_mapping (day_of_week tc) = Some dow ->
  parse_class_time (class_time tc) = Some (h, m) ->
  ~ (0 <= h <= 23 /\ 0 <= m <= 59) ->
  create_class e tc s =
  (Raised DatetimeError,
   set_classes_db (insert (uuid4 e) (created_record e tc)) s).
Proof.
  intros _ Hd Hp Hrange.
  assert (Hct : compute_trigger (now e) tc = DatetimeRaised).
  { unfold compute_trigger, replace_time. rewrite Hd, Hp.
    by rewrite bool_decide_false. }
  unfold create_class, schedule_reminder.
  change (compute_trigger (now e)
            (set_created_at (Some (now e)) (set_id (Some (uuid4 e)) tc)))
    with (compute_trigger (now e) tc).
  by rewrite Hct.
Qed.

Lemma create_class_time_out_of_range_witness :
  create_class Sample.env1 (Sample.request "Friday" "25:00" 15) initial_state =
  (Raised DatetimeError,
   set_classes_db
     (insert "u1" (created_record Sample.env1 (Sample.request "Friday" "25:00" 15)))
     initial_state).
Proof.
  refine (create_class_time_out_of_range Sample.env1
            (Sample.request "Friday" "25:00" 15) initial_state 4 25 0 _ _ _ _).
  - split; [reflexivity | cbn; lia].
  - vm_compute. reflexivity.
  - vm_compute. reflexivity.
  - vm_compute. intros [[_ H] _]. by apply H.
Defined.

(** X7.  Every request the class form can post is scheduled: with a
    weekday of the select box, a time of day rendered by the form, a lead
    time of at most a day (the slider offers 5 to 120 minutes) and a
    clock from 0001-01-02 on, [create_class] returns the success response
    and the job store holds the job of the new class. *)
Theorem create_class_from_form (e : Env) (s : State)
    (session_phone child subj day : string) (h m lead : Z) :
  day ∈ weekday_options ->
  0 <= h <= 23 -> 0 <= m <= 59 ->
  0 <= lead <= 1440 ->
  2 <= ordinal (now e) <= max_ordinal ->
  let body := class_data session_phone child subj day h m lead in
  exists t,
    compute_trigger (now e) body = Trigger t /\
    (create_class e body s).1 = Returned (created_response e) /\
    Scheduler.lookup_job (reminder_id (uuid4 e)) (scheduler_jobs (create_class e body s).2)
    = Some (reminder_job (uuid4 e) t).
Proof.
  intros [dow Hd]%weekday_options_mapped Hh Hm Hlead Hclock body.
  assert (Hct : exists t, compute_trigger (now e) body = Trigger t).
  { unfold compute_trigger, body. simpl.
    rewrite Hd, parse_strftime_in_range by done.
    unfold replace_time. rewrite bool_decide_true by done.
    unfold timedelta_minutes. rewrite bool_decide_true
      by (unfold max_delta_days; Z.div_mod_to_equations; lia).
    unfold sub_minutes. simpl. rewrite bool_decide_true; [by eexists|].
    revert Hclock. unfold max_ordinal. Z.div_mod_to_equations. lia. }
  destruct Hct as [t Ht]. exists t. split; [done|].
  pose proof (create_class_outcome e body s) as Ho.
  pose proof (create_class_registry e body s) as Hr.
  rewrite Ht in Ho, Hr. done.
Qed.

Lemma create_class_from_form_witness :
  exists t,
    compute_trigger Sample.clock
      (class_data "+15550100" "Ann" "Math" "Friday" 18 0 15) = Trigger t /\
    (create_class Sample.env1
       (class_data "+15550100" "Ann" "Math" "Friday" 18 0 15) initial_state).1
    = Returned (created_response Sample.env1) /\
    Scheduler.lookup_job (reminder_id "u1")
      (scheduler_jobs (create_class Sample.env1
         (class_data "+15550100" "Ann" "Math" "Friday" 18 0 15) initial_state).2)
    = Some (reminder_job "u1" t).
Proof.
  refine (create_class_from_form Sample.env1 initial_state
            "+15550100" "Ann" "Math" "Friday" 18 0 15 _ _ _ _ _).
  - unfold weekday_options. repeat (first [left | right]).
  - vm_compute. split; discriminate.
  - vm_compute. split; discriminate.
  - vm_compute. split; discriminate.
  - vm_compute. split; discriminate.
Defined.

(** ** What create, update and delete do to the job store *)

Section HandlerEffects.
Import Scheduler.
Implicit Types (e : Env) (s : State) (cid k : string) (tc : TutoringClass)
  (j : Job) (js : list Job).

Lemma jobs_with_id_app k js1 js2 :
  jobs_with_id k (js1 ++ js2) = jobs_with_id k js1 ++ jobs_with_id k js2.
Proof. unfold jobs_with_id. apply List.filter_app. Qed.

Lemma jobs_with_id_cons k j js :
  jobs_with_id k (j :: js) =
  if decide (job_id j = k) then j :: jobs_with_id k js else jobs_with_id k js.
Proof. unfold jobs_with_id. simpl. case_bool_decide; case_decide; congruence. Qed.

Lemma jobs_with_id_replace_first_ne k j js :
  k <> job_id j -> jobs_with_id k (replace_first j js) = jobs_with_id k js.
Proof.
  intros Hne. induction js as [|j' js IH]; [done|]. cbn [replace_first].
  destruct (decide (job_id j' = job_id j)) as [Hid|Hid].
  - rewrite !jobs_with_id_cons, !decide_False by congruence. done.
  - rewrite !jobs_with_id_cons, IH. done.
Qed.

Lemma jobs_with_id_remove_first_ne k k' js :
  k <> k' -> jobs_with_id k (remove_first k' js) = jobs_with_id k js.
Proof.
  intros Hne. induction js as [|j js IH]; [done|]. cbn [remove_first].
  destruct (decide (job_id j = k')) as [Hid|Hid].
  - rewrite jobs_with_id_cons, decide_False by congruence. done.
  - rewrite !jobs_with_id_cons, IH. done.
Qed.

Lemma install_frame cid t js js' k :
  install cid t js = inr js' -> k <> reminder_id cid ->
  jobs_with_id k js' = jobs_with_id k js.
Proof.
  rewrite install_eq. intros [= <-] Hne. case_decide.
  - rewrite jobs_with_id_app, jobs_with_id_cons. simpl.
    rewrite decide_False by congruence. apply app_nil_r.
  - by apply jobs_with_id_replace_first_ne.
Qed.

Lemma remove_first_app_absent k j js :
  count_jobs k js = 0%nat -> job_id j = k -> remove_first k (js ++ [j]) = js.
Proof.
  intros Hc%count_jobs_zero Hid. induction Hc as [|j' js Hj' Hjs IH]; simpl.
  - by rewrite decide_True.
  - rewrite decide_False by done. by rewrite IH.
Qed.

Lemma remove_first_count_zero k js :
  one_per_id js -> count_jobs k (remove_first k js) = 0%nat.
Proof.
  intros Hu. rewrite count_remove_first, decide_True by done.
  specialize (Hu k). lia.
Qed.

(** The job store after [schedule_reminder] on a class without a job. *)
Lemma schedule_reminder_jobs e cid tc s :
  count_jobs (reminder_id cid) (scheduler_jobs s) = 0%nat ->
  scheduler_jobs (schedule_reminder e cid tc s).2 =
  match compute_trigger (now e) tc with
  | Trigger t => scheduler_jobs s ++ [reminder_job cid t]
  | _ => scheduler_jobs s
  end.
Proof.
  intros Hz. pose proof (schedule_reminder_spec e cid tc s) as H.
  destruct (compute_trigger (now e) tc); try (by rewrite H).
  destruct H as (js & Hi & ->). simpl.
  rewrite install_eq, decide_True in Hi by done. by injection Hi as <-.
Qed.

Lemma create_class_jobs e tc s :
  count_jobs (reminder_id (uuid4 e)) (scheduler_jobs s) = 0%nat ->
  scheduler_jobs (create_class e tc s).2 =
  match compute_trigger (now e) tc with
  | Trigger t => scheduler_jobs s ++ [reminder_job (uuid4 e) t]
  | _ => scheduler_jobs s
  end.
Proof.
  intros Hz. rewrite create_class_state. by rewrite schedule_reminder_jobs.
Qed.

Lemma update_class_jobs e cid tc s :
  one_per_id (scheduler_jobs s) -> is_Some (classes_db s !! cid) ->
  scheduler_jobs (update_class e cid tc s).2 =
  match compute_trigger (now e) tc with
  | Trigger t => remove_first (reminder_id cid) (scheduler_jobs s) ++ [reminder_job cid t]
  | _ => remove_first (reminder_id cid) (scheduler_jobs s)
  end.
Proof.
  intros Hu Hsome. rewrite update_class_state by done.
  rewrite schedule_reminder_jobs; simpl; rewrite remove_old_reminder_jobs.
  - done.
  - by apply remove_first_count_zero.
Qed.

Lemma update_class_outcome e cid tc s :
  is_Some (classes_db s !! cid) ->
  (update_class e cid tc s).1 =
  match compute_trigger (now e) tc with
  | DatetimeRaised => Raised DatetimeError
  | _ => Returned updated_response
  end.
Proof.
  intros [old Hold]. unfold update_class. rewrite Hold.
  pose proof (schedule_reminder_spec e cid (set_id (Some cid) tc)
    (set_classes_db (insert cid (set_id (Some cid) tc)) (remove_old_reminder cid s))) as H.
  change (compute_trigger (now e) (set_id (Some cid) tc))
    with (compute_trigger (now e) tc) in H.
  destruct (compute_trigger (now e) tc);
    [rewrite H..|destruct H as (js & _ & ->)]; done.
Qed.

Lemma delete_class_state cid s :
  is_Some (classes_db s !! cid) ->
  classes_db (delete_class cid s).2 = delete cid (classes_db s) /\
  scheduler_jobs (delete_class cid s).2 = remove_first (reminder_id cid) (scheduler_jobs s) /\
  messages_db (delete_class cid s).2 = messages_db s.
Proof.
  intros [old Hold]. unfold delete_class. rewrite Hold. simpl.
  by rewrite remove_old_reminder_classes, remove_old_reminder_jobs,
    remove_old_reminder_messages.
Qed.

Lemma reachable_one_per_id lo hi s : reachable lo hi s -> one_per_id (scheduler_jobs s).
Proof. by intros [Hu _ _]%reachable_consistent. Qed.

End HandlerEffects.

Section RegistryFacts.
Import Scheduler.
Implicit Types (e : Env) (s : State) (cid k : string) (tc : TutoringClass)
  (j : Job) (js : list Job).

Lemma schedule_reminder_frame e cid tc s k :
  k <> reminder_id cid ->
  jobs_with_id k (scheduler_jobs (schedule_reminder e cid tc s).2)
  = jobs_with_id k (scheduler_jobs s).
Proof.
  intros Hne. pose proof (schedule_reminder_spec e cid tc s) as H.
  destruct (compute_trigger (now e) tc); try (by rewrite H).
  destruct H as (js & Hi & ->). simpl. by eapply install_frame.
Qed.

Lemma update_class_messages e cid tc s :
  messages_db (update_class e cid tc s).2 = messages_db s.
Proof.
  destruct (classes_db s !! cid) as [old|] eqn:Hold;
    [|by unfold update_class; rewrite Hold].
  rewrite update_class_state by by eexists.
  rewrite schedule_reminder_messages. simpl. apply remove_old_reminder_messages.
Qed.

Lemma create_class_messages e tc s :
  messages_db (create_class e tc s).2 = messages_db s.
Proof. rewrite create_class_state. by rewrite schedule_reminder_messages. Qed.

Lemma delete_class_messages cid s :
  messages_db (delete_class cid s).2 = messages_db s.
Proof.
  destruct (classes_db s !! cid) as [old|] eqn:Hold;
    [|by unfold delete_class; rewrite Hold].
  by apply delete_class_state.
Qed.

Lemma job_in_store_counted j js :
  j ∈ js -> (1 <= count_jobs (job_id j) js)%nat.
Proof.
  intros Hin. destruct (count_jobs (job_id j) js) eqn:Hc; [|lia].
  apply count_jobs_zero in Hc. rewrite Forall_forall in Hc. by destruct (Hc j Hin).
Qed.

Lemma one_per_id_NoDup js : one_per_id js -> NoDup (job_id <$> js).
Proof.
  induction js as [|j js IH]; intros Hu; [constructor|].
  rewrite fmap_cons. constructor.
  - intros (j' & Hid & Hin%job_in_store_counted)%list_elem_of_fmap.
    specialize (Hu (job_id j)). rewrite count_jobs_cons, decide_True in Hu by done.
    rewrite Hid in Hu. lia.
  - apply IH. intros k. specialize (Hu k). rewrite count_jobs_cons in Hu. lia.
Qed.

Lemma one_per_id_snoc k j js :
  one_per_id js -> count_jobs (job_id j) js = 0%nat -> one_per_id (js ++ [j]).
Proof.
  intros Hu Hz k'. rewrite count_jobs_app, count_jobs_cons. specialize (Hu k').
  unfold count_jobs at 2, jobs_with_id. simpl. case_decide; [subst k'|]; lia.
Qed.

Lemma update_class_one_per_id e cid tc s :
  one_per_id (scheduler_jobs s) -> one_per_id (scheduler_jobs (update_class e cid tc s).2).
Proof.
  intros Hu. destruct (classes_db s !! cid) as [old|] eqn:Hold;
    [|by unfold update_class; rewrite Hold].
  rewrite update_class_jobs by (done || by eexists).
  pose proof (remove_first_one_per_id (reminder_id cid) _ Hu) as Hu'.
  destruct (compute_trigger (now e) tc); try done.
  apply (one_per_id_snoc (reminder_id cid)); [done|].
  by apply remove_first_count_zero.
Qed.

End RegistryFacts.

(** X8.  Creating, updating or deleting one class leaves every other
    class as it was: its stored record and the jobs under its id. *)
Theorem other_classes_untouched (e : Env) (cid cid' : string) (tc : TutoringClass)
    (s : State) :
  cid' <> uuid4 e -> cid' <> cid ->
  same_class_at cid' s (create_class e tc s).2 /\
  same_class_at cid' s (update_class e cid tc s).2 /\
  same_class_at cid' s (delete_class cid s).2.
Proof.
  intros Hfresh Hne.
  assert (Hrid : forall c, cid' <> c -> reminder_id cid' <> reminder_id c)
    by (by intros c Hc ?%reminder_id_inj).
  split; [|split]; split.
  - by rewrite create_class_classes, lookup_insert_ne.
  - rewrite create_class_state. by rewrite schedule_reminder_frame by auto.
  - destruct (classes_db s !! cid) as [old|] eqn:Hold;
      [|by unfold update_class; rewrite Hold].
    by rewrite update_class_classes, lookup_insert_ne by (done || by eexists).
  - destruct (classes_db s !! cid) as [old|] eqn:Hold;
      [|by unfold update_class; rewrite Hold].
    rewrite update_class_state by by eexists.
    rewrite schedule_reminder_frame by auto. simpl.
    rewrite remove_old_reminder_jobs.
    by apply jobs_with_id_remove_first_ne, Hrid.
  - destruct (classes_db s !! cid) as [old|] eqn:Hold;
      [|by unfold delete_class; rewrite Hold].
    destruct (delete_class_state cid s) as (-> & _ & _); [by eexists|].
    by rewrite lookup_delete_ne.
  - destruct (classes_db s !! cid) as [old|] eqn:Hold;
      [|by unfold delete_class; rewrite Hold].
    destruct (delete_class_state cid s) as (_ & -> & _); [by eexists|].
    by apply jobs_with_id_remove_first_ne, Hrid.
Qed.

Lemma other_classes_untouched_witness :
  same_class_at "u1" Sample.after_friday
    (create_class Sample.env2 Sample.monday_early Sample.after_friday).2 /\
  same_class_at "u1" Sample.after_friday
    (update_class Sample.env2 "u2" Sample.monday_early Sample.after_friday).2 /\
  same_class_at "u1" Sample.after_friday (delete_class "u2" Sample.after_friday).2.
Proof.
  refine (other_classes_untouched Sample.env2 "u2" "u1" Sample.monday_early
            Sample.after_friday _ _); vm_compute; discriminate.
Defined.

(** X9.  Updating a stored class with a [plain] class time and schedule
    fields that yield a trigger: the handler returns the success
    response, the stored record is the request body with the id of the
    path, and the job store holds exactly one job for the class, with the
    new trigger. *)
Theorem update_class_replaces_job (lo hi : Z) (e : Env) (cid : string)
    (tc : TutoringClass) (t : CronTrigger) (s : State) :
  reachable lo hi s ->
  is_Some (classes_db s !! cid) ->
  PyStr.plain (class_time tc) ->
  compute_trigger (now e) tc = Trigger t ->
  (update_class e cid tc s).1 = Returned updated_response /\
  classes_db (update_class e cid tc s).2 !! cid = Some (set_id (Some cid) tc) /\
  Scheduler.jobs_with_id (reminder_id cid) (scheduler_jobs (update_class e cid tc s).2)
  = [reminder_job cid t].
Proof.
  intros Hu%reachable_one_per_id Hsome _ Ht. split; [|split].
  - by rewrite update_class_outcome, Ht.
  - by rewrite update_class_classes, lookup_insert_eq.
  - rewrite update_class_jobs, Ht by done.
    rewrite jobs_with_id_app, (count_jobs_nil _ _ (remove_first_count_zero _ _ Hu)).
    rewrite jobs_with_id_cons. simpl. by rewrite decide_True.
Qed.

(** X10.  Updating a stored class with a weekday that [schedule_reminder]
    does not know, or with a [plain] class time that it cannot parse: the
    handler still returns the success response and stores the new record,
    and the class is left without any job, the old one having been
    removed first. *)
Theorem update_class_refused_schedule_drops_job (lo hi : Z) (e : Env) (cid : string)
    (tc : TutoringClass) (s : State) :
  reachable lo hi s ->
  is_Some (classes_db s !! cid) ->
  compute_trigger (now e) tc = InvalidDay \/
  (PyStr.plain (class_time tc) /\ compute_trigger (now e) tc = InvalidTimeFormat) ->
  (update_class e cid tc s).1 = Returned updated_response /\
  classes_db (update_class e cid tc s).2 !! cid = Some (set_id (Some cid) tc) /\
  Scheduler.jobs_with_id (reminder_id cid) (scheduler_jobs (update_class e cid tc s).2)
  = [].
Proof.
  intros Hu%reachable_one_per_id Hsome Ht. split; [|split].
  - rewrite update_class_outcome by done. by destruct Ht as [-> | [_ ->]].
  - by rewrite update_class_classes, lookup_insert_eq.
  - rewrite update_class_jobs by done.
    pose proof (count_jobs_nil _ _ (remove_first_count_zero (reminder_id cid) _ Hu)).
    by destruct Ht as [-> | [_ ->]].
Qed.

Lemma after_friday_reachable : reachable 700000 800000 Sample.after_friday.
Proof.
  apply reach_create.
  - apply reach_init.
  - vm_compute. split; discriminate.
  - apply lookup_empty.
Qed.

Lemma after_friday_has_u1 : is_Some (classes_db Sample.after_friday !! "u1").
Proof. eexists. vm_compute. reflexivity. Qed.

Lemma update_class_replaces_job_witness :
  (update_class Sample.env2 "u1" (Sample.request "Friday" "18:00" 45)
     Sample.after_friday).1 = Returned updated_response /\
  classes_db (update_class Sample.env2 "u1" (Sample.request "Friday" "18:00" 45)
     Sample.after_friday).2 !! "u1"
  = Some (set_id (Some "u1") (Sample.request "Friday" "18:00" 45)) /\
  Scheduler.jobs_with_id (reminder_id "u1")
    (scheduler_jobs (update_class Sample.env2 "u1" (Sample.request "Friday" "18:00" 45)
       Sample.after_friday).2)
  = [reminder_job "u1" (mk_trigger 4 17 15)].
Proof.
  refine (update_class_replaces_job 700000 800000 Sample.env2 "u1"
            (Sample.request "Friday" "18:00" 45) (mk_trigger 4 17 15)
            Sample.after_friday after_friday_reachable after_friday_has_u1 _ _).
  - split; [reflexivity | cbn; lia].
  - vm_compute. reflexivity.
Defined.

Lemma update_class_refused_schedule_drops_job_witness :
  (update_class Sample.env2 "u1" Sample.funday Sample.after_friday).1
  = Returned updated_response /\
  classes_db (update_class Sample.env2 "u1" Sample.funday Sample.after_friday).2 !! "u1"
  = Some (set_id (Some "u1") Sample.funday) /\
  Scheduler.jobs_with_id (reminder_id "u1")
    (scheduler_jobs (update_class Sample.env2 "u1" Sample.funday Sample.after_friday).2)
  = [].
Proof.
  refine (update_class_refused_schedule_drops_job 700000 800000 Sample.env2 "u1"
            Sample.funday Sample.after_friday after_friday_reachable
            after_friday_has_u1 _).
  left. vm_compute. reflexivity.
Defined.

(** X11.  Creating a class and deleting it again undoes the creation:
    whatever the schedule fields, and whether or not [create_class]
    raised, the delete succeeds and the record store, the job store and
    the message log are those before the create. *)
Theorem create_then_delete_restores (lo hi : Z) (e : Env) (tc : TutoringClass) (s : State) :
  reachable lo hi s ->
  classes_db s !! uuid4 e = None ->
  let s1 := (create_class e tc s).2 in
  (delete_class (uuid4 e) s1).1 = Returned [("message", "Class deleted successfully")] /\
  classes_db (delete_class (uuid4 e) s1).2 = classes_db s /\
  scheduler_jobs (delete_class (uuid4 e) s1).2 = scheduler_jobs s /\
  messages_db (delete_class (uuid4 e) s1).2 = messages_db s.
Proof.
  intros [_ Hs _]%reachable_consistent Hfresh s1.
  pose proof (no_record_no_job _ _ Hs Hfresh) as Hz.
  assert (Hstored : classes_db s1 !! uuid4 e = Some (created_record e tc)).
  { unfold s1. by rewrite create_class_classes, lookup_insert_eq. }
  destruct (delete_class_state (uuid4 e) s1) as (Hc & Hj & Hm); [by eexists|].
  split; [|split; [|split]].
  - unfold delete_class. by rewrite Hstored.
  - rewrite Hc. unfold s1. rewrite create_class_classes. by apply delete_insert_id.
  - rewrite Hj. unfold s1. rewrite create_class_jobs by done.
    destruct (compute_trigger (now e) tc);
      try (by apply remove_first_absent).
    by apply remove_first_app_absent.
  - rewrite Hm. apply create_class_messages.
Qed.

Lemma create_then_delete_restores_witness :
  let s1 := (create_class Sample.env2 Sample.monday_early Sample.after_friday).2 in
  (delete_class "u2" s1).1 = Returned [("message", "Class deleted successfully")] /\
  classes_db (delete_class "u2" s1).2 = classes_db Sample.after_friday /\
  scheduler_jobs (delete_class "u2" s1).2 = scheduler_jobs Sample.after_friday /\
  messages_db (delete_class "u2" s1).2 = messages_db Sample.after_friday.
Proof.
  refine (create_then_delete_restores 700000 800000 Sample.env2 Sample.monday_early
            Sample.after_friday after_friday_reachable _).
  vm_compute. reflexivity.
Defined.

(** X12.  Once [delete_class] has returned for a class, the class is
    unknown to the other handlers: updating it, deleting it again or
    sending a manual reminder raises the 404 [HTTPException] and changes
    nothing. *)
Theorem deleted_class_is_unknown (e : Env) (cid : string) (tc : TutoringClass)
    (req : ReminderRequest) (r : Response) (s s' : State) :
  delete_class cid s = (Returned r, s') ->
  update_class e cid tc s' = (Raised (HTTPException 404 "Class not found"), s') /\
  delete_class cid s' = (Raised (HTTPException 404 "Class not found"), s') /\
  send_manual_reminder e cid req s' = (Raised (HTTPException 404 "Class not found"), s').
Proof.
  intros [_ Hnone]%delete_class_Returned.
  unfold update_class, delete_class, send_manual_reminder. by rewrite Hnone.
Qed.

Lemma deleted_class_is_unknown_witness :
  let s' := (delete_class "u1" Sample.after_friday).2 in
  update_class Sample.env2 "u1" Sample.friday s'
    = (Raised (HTTPException 404 "Class not found"), s') /\
  delete_class "u1" s' = (Raised (HTTPException 404 "Class not found"), s') /\
  send_manual_reminder Sample.env2 "u1" (mk_request "u1" None) s'
    = (Raised (HTTPException 404 "Class not found"), s').
Proof.
  refine (deleted_class_is_unknown Sample.env2 "u1" Sample.friday (mk_request "u1" None)
            [("message", "Class deleted successfully")] Sample.after_friday
            (delete_class "u1" Sample.after_friday).2 _).
  vm_compute. reflexivity.
Defined.

(** X13.  [update_class] is idempotent on the stores: sending the same
    update a second time gives the same outcome and leaves the record
    store, the job store and the message log as the first update left
    them (only the log grows). *)
Theorem update_class_idempotent (lo hi : Z) (e : Env) (cid : string)
    (tc : TutoringClass) (s : State) :
  reachable lo hi s ->
  is_Some (classes_db s !! cid) ->
  let s1 := (update_class e cid tc s).2 in
  (update_class e cid tc s1).1 = (update_class e cid tc s).1 /\
  classes_db (update_class e cid tc s1).2 = classes_db s1 /\
  scheduler_jobs (update_class e cid tc s1).2 = scheduler_jobs s1 /\
  messages_db (update_class e cid tc s1).2 = messages_db s1.
Proof.
  intros Hu%reachable_one_per_id Hsome s1.
  assert (Hsome1 : is_Some (classes_db s1 !! cid)).
  { unfold s1. rewrite update_class_classes, lookup_insert_eq by done. by eexists. }
  pose proof (update_class_one_per_id e cid tc s Hu) as Hu1. fold s1 in Hu1.
  pose proof (remove_first_count_zero (reminder_id cid) _ Hu) as Hz.
  split; [|split; [|split]].
  - by rewrite !update_class_outcome.
  - rewrite update_class_classes by done. unfold s1.
    rewrite update_class_classes by done. apply insert_insert_eq.
  - rewrite update_class_jobs by done. unfold s1.
    rewrite update_class_jobs by done.
    destruct (compute_trigger (now e) tc);
      try (by rewrite remove_first_absent).
    by rewrite remove_first_app_absent.
  - apply update_class_messages.
Qed.

Lemma update_class_idempotent_witness :
  let s1 := (update_class Sample.env2 "u1" (Sample.request "Friday" "18:00" 45)
               Sample.after_friday).2 in
  (update_class Sample.env2 "u1" (Sample.request "Friday" "18:00" 45) s1).1
  = (update_class Sample.env2 "u1" (Sample.request "Friday" "18:00" 45)
       Sample.after_friday).1 /\
  classes_db (update_class Sample.env2 "u1" (Sample.request "Friday" "18:00" 45) s1).2
  = classes_db s1 /\
  scheduler_jobs (update_class Sample.env2 "u1" (Sample.request "Friday" "18:00" 45) s1).2
  = scheduler_jobs s1 /\
  messages_db (update_class Sample.env2 "u1" (Sample.request "Friday" "18:00" 45) s1).2
  = messages_db s1.
Proof.
  exact (update_class_idempotent 700000 800000 Sample.env2 "u1"
           (Sample.request "Friday" "18:00" 45) Sample.after_friday
           after_friday_reachable after_friday_has_u1).
Defined.

(** X14.  After a class is created with a [plain] class time and
    schedule fields that yield a trigger, the scheduler calls
    [send_class_reminder] for it at exactly the whole minutes at which
    that trigger is due: those of its weekday, hour and minute. *)
Theorem created_class_fires_at_trigger (lo hi : Z) (e : Env) (tc : TutoringClass)
    (t : CronTrigger) (s : State) (d : datetime) :
  reachable lo hi s ->
  classes_db s !! uuid4 e = None ->
  PyStr.plain (class_time tc) ->
  compute_trigger (now e) tc = Trigger t ->
  whole_minute d ->
  uuid4 e ∈ dispatcher_invocations d (create_class e tc s).2 <-> Scheduler.fires_at t d.
Proof.
  intros [_ Hs _]%reachable_consistent Hfresh _ Ht _.
  pose proof (no_record_no_job _ _ Hs Hfresh) as Hz.
  unfold dispatcher_invocations, Scheduler.due_jobs.
  rewrite create_class_jobs, Ht by done.
  rewrite list_elem_of_fmap. split.
  - intros (j & Hargs & Hj).
    apply list_elem_of_In, List.filter_In in Hj as [Hj Hfires].
    apply bool_decide_eq_true in Hfires.
    apply List.in_app_or in Hj as [Hj|[<-|[]]]; [|done].
    apply list_elem_of_In in Hj. rewrite Forall_forall in Hs.
    destruct (Hs j Hj) as (_ & tc' & Htc' & _). congruence.
  - intros Hfires. exists (reminder_job (uuid4 e) t). split; [done|].
    apply list_elem_of_In, List.filter_In. split.
    + apply List.in_or_app. right. by left.
    + by apply bool_decide_eq_true_2.
Qed.

Lemma created_class_fires_at_trigger_witness :
  "u2" ∈ dispatcher_invocations (mk_datetime 739009 17 45 0 0)
           (create_class Sample.env2 Sample.friday Sample.after_friday).2
  <-> Scheduler.fires_at (mk_trigger 4 17 45) (mk_datetime 739009 17 45 0 0).
Proof.
  refine (created_class_fires_at_trigger 700000 800000 Sample.env2 Sample.friday
            (mk_trigger 4 17 45) Sample.after_friday (mk_datetime 739009 17 45 0 0)
            after_friday_reachable _ _ _ _).
  - vm_compute. reflexivity.
  - split; [reflexivity | cbn; lia].
  - vm_compute. reflexivity.
  - split; reflexivity.
Defined.

(** X15.  The health report never shows more scheduled jobs than stored
    classes: every job belongs to a stored class, and no class has two. *)
Theorem health_jobs_at_most_classes (lo hi : Z) (e : Env)
    (parents_db : gmap string Parent) (s : State) :
  reachable lo hi s ->
  (scheduled_jobs (health_check e parents_db s)
   <= total_classes (health_check e parents_db s))%nat.
Proof.
  intros [Hu Hs _]%reachable_consistent. simpl.
  assert (Hids : job_id <$> scheduler_jobs s
                 = reminder_id <$> (job_args <$> scheduler_jobs s)).
  { rewrite <- list_fmap_compose. apply Forall_fmap_ext.
    eapply Forall_impl; [exact Hs|]. by intros j [Hid _]. }
  assert (Hnd : NoDup (job_args <$> scheduler_jobs s)).
  { apply (NoDup_fmap_1 reminder_id). rewrite <- Hids. by apply one_per_id_NoDup. }
  rewrite <- (length_fmap job_args), <- (size_list_to_set (C:=gset string)) by done.
  rewrite <- (size_dom (D:=gset string)). apply subseteq_size.
  intros cid (j & -> & Hj)%elem_of_list_to_set%list_elem_of_fmap.
  rewrite Forall_forall in Hs. destruct (Hs j Hj) as (_ & tc & Htc & _).
  apply elem_of_dom. by eexists.
Qed.

Lemma health_jobs_at_most_classes_witness :
  (scheduled_jobs (health_check Sample.env2 ∅ Sample.after_friday)
   <= total_classes (health_check Sample.env2 ∅ Sample.after_friday))%nat.
Proof.
  exact (health_jobs_at_most_classes 700000 800000 Sample.env2 ∅ Sample.after_friday
           after_friday_reachable).
Defined.

(** ** Dispatching and the message log *)

Section Dispatch.
Implicit Types (e : Env) (s : State) (cid ph : string) (tc : TutoringClass).

Lemma send_class_reminder_messages e cid s :
  messages_db (send_class_reminder e cid s).2 =
  match classes_db s !! cid with
  | Some tc => if is_active tc then messages_db s ++ [reminder_entry e tc]
               else messages_db s
  | None => messages_db s
  end.
Proof.
  unfold send_class_reminder. destruct (classes_db s !! cid) as [tc|]; [|done].
  by destruct (is_active tc).
Qed.

Lemma send_manual_reminder_state e cid req s :
  (send_manual_reminder e cid req s).2 =
  match classes_db s !! cid with
  | Some _ => (send_class_reminder e cid s).2
  | None => s
  end.
Proof.
  unfold send_manual_reminder. destruct (classes_db s !! cid); [|done].
  by destruct (send_class_reminder e cid s) as [[] ?].
Qed.

Lemma get_messages_app ph s m :
  List.filter (fun msg => bool_decide (msg_phone msg = ph)) (messages_db s ++ [m]) =
  get_messages ph s ++ (if decide (msg_phone m = ph) then [m] else []).
Proof.
  unfold get_messages. rewrite List.filter_app. f_equal. simpl.
  case_bool_decide; case_decide; congruence.
Qed.

End Dispatch.

(** X16.  Firing for a stored, active class sends exactly one message:
    the message list of the parent's phone grows by the rendered reminder,
    stamped with the clock reading and marked sent, and the message list
    of every other phone is unchanged. *)
Theorem fire_active_class_sends_one (e : Env) (cid : string) (tc : TutoringClass)
    (s : State) :
  classes_db s !! cid = Some tc ->
  is_active tc = true ->
  (send_class_reminder e cid s).1 = Returned tt /\
  get_messages (parent_phone tc) (send_class_reminder e cid s).2
  = get_messages (parent_phone tc) s ++ [reminder_entry e tc] /\
  forall ph, ph <> parent_phone tc ->
    get_messages ph (send_class_reminder e cid s).2 = get_messages ph s.
Proof.
  intros Htc Hactive.
  pose proof (send_class_reminder_messages e cid s) as Hm.
  rewrite Htc, Hactive in Hm. split; [|split].
  - unfold send_class_reminder. by rewrite Htc, Hactive.
  - unfold get_messages at 1. rewrite Hm, get_messages_app.
    by rewrite decide_True.
  - intros ph Hph. unfold get_messages at 1. rewrite Hm, get_messages_app.
    rewrite decide_False by (simpl; congruence). apply app_nil_r.
Qed.

Lemma fire_active_class_sends_one_witness :
  (send_class_reminder Sample.env2 "u1" Sample.after_friday).1 = Returned tt /\
  get_messages "+15550100" (send_class_reminder Sample.env2 "u1" Sample.after_friday).2
  = get_messages "+15550100" Sample.after_friday
    ++ [reminder_entry Sample.env2 (created_record Sample.env1 Sample.friday)] /\
  forall ph, ph <> "+15550100" ->
    get_messages ph (send_class_reminder Sample.env2 "u1" Sample.after_friday).2
    = get_messages ph Sample.after_friday.
Proof.
  refine (fire_active_class_sends_one Sample.env2 "u1"
            (created_record Sample.env1 Sample.friday) Sample.after_friday _ _);
    vm_compute; reflexivity.
Defined.

(** X17.  A manual reminder for a stored class always answers that the
    reminder was sent, also when the class is inactive and nothing is
    sent; the message log grows by the reminder exactly when the class is
    active; and the request body, custom message included, is not read. *)
Theorem manual_reminder_stored_class (e : Env) (cid : string) (tc : TutoringClass)
    (req req' : ReminderRequest) (s : State) :
  classes_db s !! cid = Some tc ->
  (send_manual_reminder e cid req s).1
    = Returned [("message", "Reminder sent successfully")] /\
  messages_db (send_manual_reminder e cid req s).2
    = (if is_active tc then messages_db s ++ [reminder_entry e tc] else messages_db s) /\
  send_manual_reminder e cid req' s = send_manual_reminder e cid req s.
Proof.
  intros Htc. split; [|split; [|reflexivity]].
  - unfold send_manual_reminder, send_class_reminder. rewrite Htc.
    by destruct (is_active tc).
  - rewrite send_manual_reminder_state, Htc, send_class_reminder_messages.
    by rewrite Htc.
Qed.

Lemma manual_reminder_stored_class_witness :
  (send_manual_reminder Sample.env2 "u1" (mk_request "u1" (Some "Bring books"))
     Sample.after_friday).1
    = Returned [("message", "Reminder sent successfully")] /\
  messages_db (send_manual_reminder Sample.env2 "u1"
                 (mk_request "u1" (Some "Bring books")) Sample.after_friday).2
    = (if is_active (created_record Sample.env1 Sample.friday)
       then messages_db Sample.after_friday
            ++ [reminder_entry Sample.env2 (created_record Sample.env1 Sample.friday)]
       else messages_db Sample.after_friday) /\
  send_manual_reminder Sample.env2 "u1" (mk_request "u1" None) Sample.after_friday
  = send_manual_reminder Sample.env2 "u1" (mk_request "u1" (Some "Bring books"))
      Sample.after_friday.
Proof.
  refine (manual_reminder_stored_class Sample.env2 "u1"
            (created_record Sample.env1 Sample.friday)
            (mk_request "u1" (Some "Bring books")) (mk_request "u1" None)
            Sample.after_friday _).
  vm_compute. reflexivity.
Defined.

(** X18.  What the class handlers do to the message log: creating,
    updating and deleting a class leave it unchanged; a manual reminder
    or a fire keeps the entries that are there and appends at most one
    message. *)
Theorem class_handlers_message_log (e : Env) (cid : string) (tc : TutoringClass)
    (req : ReminderRequest) (s : State) :
  messages_db (create_class e tc s).2 = messages_db s /\
  messages_db (update_class e cid tc s).2 = messages_db s /\
  messages_db (delete_class cid s).2 = messages_db s /\
  (exists tail, messages_db (send_class_reminder e cid s).2 = messages_db s ++ tail /\
                (length tail <= 1)%nat) /\
  (exists tail, messages_db (send_manual_reminder e cid req s).2 = messages_db s ++ tail /\
                (length tail <= 1)%nat).
Proof.
  assert (Hfire : exists tail,
    messages_db (send_class_reminder e cid s).2 = messages_db s ++ tail /\
    (length tail <= 1)%nat).
  { rewrite send_class_reminder_messages.
    destruct (classes_db s !! cid) as [tc'|]; [destruct (is_active tc')|].
    - exists [reminder_entry e tc']. split; [done | simpl; lia].
    - exists []. split; [by rewrite app_nil_r | simpl; lia].
    - exists []. split; [by rewrite app_nil_r | simpl; lia]. }
  split; [apply create_class_messages|].
  split; [apply update_class_messages|].
  split; [apply delete_class_messages|].
  split; [done|].
  rewrite send_manual_reminder_state. destruct (classes_db s !! cid); [done|].
  exists []. split; [by rewrite app_nil_r | simpl; lia].
Qed.

(** X19.  Dispatching never touches the records or the job store:
    neither a fire nor a manual reminder changes [classes_db] or the
    scheduler's jobs. *)
Theorem dispatch_leaves_registry (e : Env) (cid : string) (req : ReminderRequest)
    (s : State) :
  classes_db (send_class_reminder e cid s).2 = classes_db s /\
  scheduler_jobs (send_class_reminder e cid s).2 = scheduler_jobs s /\
  classes_db (send_manual_reminder e cid req s).2 = classes_db s /\
  scheduler_jobs (send_manual_reminder e cid req s).2 = scheduler_jobs s.
Proof.
  split; [apply send_class_reminder_classes|].
  split; [apply send_class_reminder_jobs|].
  split; [apply send_manual_reminder_classes | apply send_manual_reminder_jobs].
Qed.

(** ** Parents, listings and weekday names *)

Section Listings.
Implicit Types (s : State) (ph cid : string) (tc : TutoringClass).

Lemma elem_of_get_parent_classes ph s tc :
  tc ∈ get_parent_classes ph s <->
  parent_phone tc = ph /\ exists cid, classes_db s !! cid = Some tc.
Proof.
  unfold get_parent_classes.
  rewrite list_elem_of_In, List.filter_In, <- list_elem_of_In, bool_decide_eq_true.
  rewrite list_elem_of_fmap. split.
  - intros [([cid tc'] & -> & Hin%elem_of_map_to_list) Hph]. eauto.
  - intros [Hph [cid Hcid]]. split; [|done].
    exists (cid, tc). split; [done | by apply elem_of_map_to_list].
Qed.

End Listings.

(** X20.  Registering a parent under a phone that is not yet registered
    succeeds; the parent is then returned by [get_parent] for that phone,
    the number of parents grows by one, and every other phone reads as
    before. *)
Theorem create_parent_registers (p : Parent) (parents_db : gmap string Parent) :
  parents_db !! phone p = None ->
  (create_parent p parents_db).1
    = Returned [("message", "Parent registered successfully"); ("phone", phone p)] /\
  get_parent (phone p) (create_parent p parents_db).2 = Returned p /\
  size (create_parent p parents_db).2 = S (size parents_db) /\
  forall ph, ph <> phone p ->
    get_parent ph (create_parent p parents_db).2 = get_parent ph parents_db.
Proof.
  intros Hfree. unfold create_parent, get_parent. rewrite Hfree. simpl.
  split; [done|]. split; [by rewrite lookup_insert_eq|].
  split; [by apply map_size_insert_None|].
  intros ph Hph. by rewrite lookup_insert_ne.
Qed.

Lemma create_parent_registers_witness :
  let p := {| phone := "+15550100"; name := "Sam"; children := ["Ann"];
              timezone := "UTC" |} in
  (create_parent p ∅).1
    = Returned [("message", "Parent registered successfully"); ("phone", phone p)] /\
  get_parent (phone p) (create_parent p ∅).2 = Returned p /\
  size (create_parent p ∅).2 = S (size (∅ : gmap string Parent)) /\
  forall ph, ph <> phone p ->
    get_parent ph (create_parent p ∅).2 = get_parent ph ∅.
Proof.
  intros p. refine (create_parent_registers p ∅ _). apply lookup_empty.
Defined.

(** X21.  The first registration of a phone wins: after [create_parent]
    for a phone, registering any parent under the same phone raises the
    400 [HTTPException] and leaves the store unchanged, so the parent
    stored under the phone is not overwritten. *)
Theorem create_parent_duplicate_refused (p p' : Parent) (parents_db : gmap string Parent) :
  phone p' = phone p ->
  let db1 := (create_parent p parents_db).2 in
  create_parent p' db1 = (Raised (HTTPException 400 "Parent already exists"), db1) /\
  get_parent (phone p) (create_parent p' db1).2 = get_parent (phone p) db1.
Proof.
  intros Hphone db1.
  assert (Hreg : is_Some (db1 !! phone p')).
  { unfold db1, create_parent. rewrite Hphone.
    destruct (parents_db !! phone p) as [q|] eqn:Hq; simpl.
    - rewrite Hq. by eexists.
    - rewrite lookup_insert_eq. by eexists. }
  destruct Hreg as [q Hq].
  assert (Hdup : create_parent p' db1
                 = (Raised (HTTPException 400 "Parent already exists"), db1)).
  { unfold create_parent. by rewrite Hq. }
  by rewrite Hdup.
Qed.

Lemma create_parent_duplicate_refused_witness :
  let p := {| phone := "+15550100"; name := "Sam"; children := ["Ann"];
              timezone := "UTC" |} in
  let p' := {| phone := "+15550100"; name := "Alex"; children := [];
               timezone := "UTC" |} in
  create_parent p' (create_parent p ∅).2
    = (Raised (HTTPException 400 "Parent already exists"), (create_parent p ∅).2) /\
  get_parent (phone p) (create_parent p' (create_parent p ∅).2).2
    = get_parent (phone p) (create_parent p ∅).2.
Proof.
  intros p p'. refine (create_parent_duplicate_refused p p' ∅ _). reflexivity.
Defined.

(** X22.  A class just created is listed for the phone of its request,
    with the server's id and creation time, and the listing of every
    other phone has the same records as before. *)
Theorem created_class_is_listed (e : Env) (tc : TutoringClass) (s : State) :
  classes_db s !! uuid4 e = None ->
  created_record e tc ∈ get_parent_classes (parent_phone tc) (create_class e tc s).2 /\
  forall ph x, ph <> parent_phone tc ->
    x ∈ get_parent_classes ph (create_class e tc s).2 <-> x ∈ get_parent_classes ph s.
Proof.
  intros Hfresh. split.
  - apply elem_of_get_parent_classes. split; [done|]. exists (uuid4 e).
    by rewrite create_class_classes, lookup_insert_eq.
  - intros ph x Hph. rewrite !elem_of_get_parent_classes, create_class_classes.
    split; intros [Hx [cid Hcid]]; (split; [done|]).
    + destruct (decide (cid = uuid4 e)) as [->|Hne].
      * rewrite lookup_insert_eq in Hcid. injection Hcid as <-. done.
      * rewrite lookup_insert_ne in Hcid by done. eauto.
    + exists cid. rewrite lookup_insert_ne; [done|]. congruence.
Qed.

Lemma created_class_is_listed_witness :
  created_record Sample.env2 Sample.monday_early
    ∈ get_parent_classes (parent_phone Sample.monday_early)
        (create_class Sample.env2 Sample.monday_early Sample.after_friday).2 /\
  forall ph x, ph <> parent_phone Sample.monday_early ->
    x ∈ get_parent_classes ph
          (create_class Sample.env2 Sample.monday_early Sample.after_friday).2
    <-> x ∈ get_parent_classes ph Sample.after_friday.
Proof.
  refine (created_class_is_listed Sample.env2 Sample.monday_early Sample.after_friday _).
  vm_compute. reflexivity.
Defined.

(** X23.  The weekday names the backend accepts are exactly the options
    of the form's select box, spelled as there, and each is numbered by
    its place in that list, Monday being 0. *)
Theorem day_mapping_weekday_options (day : string) (dow : Z) :
  day_mapping day = Some dow <->
  0 <= dow /\ weekday_options !! Z.to_nat dow = Some day.
Proof.
  split.
  - unfold day_mapping. repeat case_decide; intros [= <-]; subst day; done.
  - intros [Hnn Hopt].
    assert (Hlt : (Z.to_nat dow < 7)%nat) by (by apply lookup_lt_Some in Hopt).
    assert (Hcases : dow = 0 \/ dow = 1 \/ dow = 2 \/ dow = 3 \/ dow = 4 \/ dow = 5 \/ dow = 6)
      by lia.
    destruct Hcases as [->|[->|[->|[->|[->|[->| ->]]]]]];
      injection Hopt as <-; vm_compute; reflexivity.
Qed.

(** X24.  Scheduling does not look at [is_active]: a class created
    inactive, with a [plain] class time and schedule fields that yield a
    trigger, gets its job like any other, so the scheduler does call
    [send_class_reminder] for it at the whole minute at which its trigger
    is due, and that call returns without sending anything or changing
    the state. *)
Theorem inactive_class_scheduled_but_silent (lo hi : Z) (e e' : Env)
    (tc : TutoringClass) (t : CronTrigger) (s : State) (d : datetime) :
  reachable lo hi s ->
  classes_db s !! uuid4 e = None ->
  is_active tc = false ->
  PyStr.plain (class_time tc) ->
  compute_trigger (now e) tc = Trigger t ->
  whole_minute d ->
  Scheduler.fires_at t d ->
  let s1 := (create_class e tc s).2 in
  uuid4 e ∈ dispatcher_invocations d s1 /\
  send_class_reminder e' (uuid4 e) s1 = (Returned tt, s1).
Proof.
  intros [_ Hs _]%reachable_consistent Hfresh Hinactive _ Ht _ Hfires s1.
  pose proof (no_record_no_job _ _ Hs Hfresh) as Hz. split.
  - unfold dispatcher_invocations, Scheduler.due_jobs, s1.
    rewrite create_class_jobs, Ht by done.
    apply list_elem_of_fmap. exists (reminder_job (uuid4 e) t). split; [done|].
    apply list_elem_of_In, List.filter_In. split.
    + apply List.in_or_app. right. by left.
    + by apply bool_decide_eq_true_2.
  - unfold send_class_reminder, s1.
    rewrite create_class_classes, lookup_insert_eq. simpl. by rewrite Hinactive.
Qed.

Lemma inactive_class_scheduled_but_silent_witness :
  let dormant :=
    {| id := None; parent_phone := "+15550100"; child_name := "Ann";
       subject := "Math"; day_of_week := "Friday"; class_time := "18:00";
       reminder_minutes := 15; is_active := false; created_at := None |} in
  let s1 := (create_class Sample.env2 dormant Sample.after_friday).2 in
  "u2" ∈ dispatcher_invocations (mk_datetime 739009 17 45 0 0) s1 /\
  send_class_reminder Sample.env1 "u2" s1 = (Returned tt, s1).
Proof.
  intros dormant.
  refine (inactive_class_scheduled_but_silent 700000 800000 Sample.env2 Sample.env1
            dormant (mk_trigger 4 17 45) Sample.after_friday
            (mk_datetime 739009 17 45 0 0) after_friday_reachable _ _ _ _ _ _).
  - vm_compute. reflexivity.
  - reflexivity.
  - split; [reflexivity | cbn; lia].
  - vm_compute. reflexivity.
  - split; reflexivity.
  - vm_compute. repeat split; reflexivity.
Defined.
